(** * Payroll earnings aggregation: a shallow embedding of
    [employee_payroll_runs.py] and the properties of its period fetcher,
    mapping loader and summary orchestrator. *)

From Stdlib Require Import ZArith String Ascii List Bool Lia.
From Stdlib Require Import Uint63 Floats.PrimFloat.
From stdpp Require Import base option gmap strings pretty.

Open Scope string_scope.
Open Scope Z_scope.

(** ** Amounts

    The source stores every amount as a Python [float], that is an IEEE 754
    binary64 number.  The aggregation code only ever uses three operations on
    amounts: the literal [0.0], [+=] and the test [float(x) == 0].  They are
    gathered in a class so that the same embedding can be read at binary64
    (the program as it runs) and at an exact number type. *)

Class Amount (A : Type) := {
  azero : A;
  aplus : A -> A -> A;
  eq_zero : A -> bool
}.

(** Python's [float]: addition rounds to nearest-even, [x == 0] holds for
    both signed zeros and fails for NaN. *)
#[export] Instance binary64 : Amount float := {|
  azero := 0%float;
  aplus := PrimFloat.add;
  eq_zero := fun x => PrimFloat.eqb x 0%float
|}.

(** Exact amounts counted in indivisible units. *)
#[export] Instance exact_units : Amount Z := {|
  azero := 0;
  aplus := Z.add;
  eq_zero := fun x => x =? 0
|}.

(** [sum(xs)] as a left fold from zero, in list order. *)
Definition sum_amounts {A} `{Amount A} (xs : list A) : A :=
  fold_left aplus xs azero.
Arguments sum_amounts {A _} xs : simpl never.

(** ** Python dictionaries

    A [dict] iterates in insertion order, and the order in which the
    accumulated amounts are listed is observable in the serialised result, so
    the mutable dictionaries are association lists in insertion order with at
    most one binding per key. *)

Module Dict.
Section Dict.
Context {V : Type}.

Definition t := list (string * V).

(** [d.get(k)] *)
Fixpoint get (k : string) (d : t) : option V :=
  match d with
  | [] => None
  | (k', v) :: d' => if String.eqb k k' then Some v else get k d'
  end.

(** [k in d] *)
Definition mem (k : string) (d : t) : bool :=
  match get k d with Some _ => true | None => false end.

(** [d[k] = v]: overwrite in place, or append a new binding. *)
Fixpoint set (k : string) (v : V) (d : t) : t :=
  match d with
  | [] => [(k, v)]
  | (k', v') :: d' =>
      if String.eqb k k' then (k', v) :: d' else (k', v') :: set k v d'
  end.

(** [d[k] = f(d[k])] for a key that is present; absent keys are left
    alone (the source only does this right after making sure of [k]). *)
Fixpoint alter (f : V -> V) (k : string) (d : t) : t :=
  match d with
  | [] => []
  | (k', v') :: d' =>
      if String.eqb k k' then (k', f v') :: d' else (k', v') :: alter f k d'
  end.

(** [if k not in d: d[k] = v] *)
Definition setdefault (k : string) (v : V) (d : t) : t :=
  if mem k d then d else set k v d.

(** [d.values()] *)
Definition values (d : t) : list V := map snd d.

(** [d.keys()] *)
Definition keys (d : t) : list string := map fst d.
End Dict.
Arguments t : clear implicits.
End Dict.

(** ** Dates and times

    [datetime] objects with the proleptic Gregorian calendar of Python's
    [datetime] module.  [tzinfo] is the UTC offset in microseconds, [None]
    for a naive value. *)

Record datetime := {
  dt_year : Z;
  dt_month : Z;
  dt_day : Z;
  dt_hour : Z;
  dt_minute : Z;
  dt_second : Z;
  dt_microsecond : Z;
  tzinfo : option Z
}.

Definition MINYEAR : Z := 1.
Definition MAXYEAR : Z := 9999.
Definition utc : option Z := Some 0.

Definition is_leap (y : Z) : bool :=
  (y mod 4 =? 0) && (negb (y mod 100 =? 0) || (y mod 400 =? 0)).

Definition days_in_month (y m : Z) : Z :=
  if m =? 2 then (if is_leap y then 29 else 28)
  else if (m =? 4) || (m =? 6) || (m =? 9) || (m =? 11) then 30
  else 31.

(** Exceptions that the modelled code can let escape, by the class that is
    raised.  In Python [json.JSONDecodeError] is a subclass of [ValueError]:
    [ValueError] below stands for an exception of exactly that class, as the
    [datetime] constructor raises it; a handler for [ValueError] catches
    both. *)
Inductive exn :=
| Exception (message : string)
| ValueError
| TypeError
| KeyError
| JSONDecodeError.

(** Result of a call: a value or a raised exception. *)
Definition raising (T : Type) := (exn + T)%type.

(** [datetime(y, m, d, tzinfo=tz)]: midnight of the given day, or
    [ValueError] when the fields do not name a day of the calendar. *)
Definition datetime_new (y m d : Z) (tz : option Z) : raising datetime :=
  if (MINYEAR <=? y) && (y <=? MAXYEAR) && (1 <=? m) && (m <=? 12)
     && (1 <=? d) && (d <=? days_in_month y m)
  then inr {| dt_year := y; dt_month := m; dt_day := d;
              dt_hour := 0; dt_minute := 0; dt_second := 0;
              dt_microsecond := 0; tzinfo := tz |}
  else inl ValueError.

(** A value that [datetime] could have constructed. *)
Definition valid_datetime (t : datetime) : bool :=
  (MINYEAR <=? dt_year t) && (dt_year t <=? MAXYEAR)
  && (1 <=? dt_month t) && (dt_month t <=? 12)
  && (1 <=? dt_day t) && (dt_day t <=? days_in_month (dt_year t) (dt_month t))
  && (0 <=? dt_hour t) && (dt_hour t <? 24)
  && (0 <=? dt_minute t) && (dt_minute t <? 60)
  && (0 <=? dt_second t) && (dt_second t <? 60)
  && (0 <=? dt_microsecond t) && (dt_microsecond t <? 1000000).

Definition days_before_year (y : Z) : Z :=
  let p := y - 1 in p * 365 + p / 4 - p / 100 + p / 400.

Fixpoint days_before_month_aux (y : Z) (m : nat) : Z :=
  match m with
  | O => 0
  | S m' => days_before_month_aux y m' + days_in_month y (Z.of_nat m)
  end.

Definition days_before_month (y m : Z) : Z :=
  days_before_month_aux y (Z.to_nat (m - 1)).

(** Proleptic Gregorian ordinal, 1 for 0001-01-01. *)
Definition ymd2ord (y m d : Z) : Z :=
  days_before_year y + days_before_month y m + d.

(** Microseconds of the wall-clock reading since the start of day 0. *)
Definition wall_micros (t : datetime) : Z :=
  (((ymd2ord (dt_year t) (dt_month t) (dt_day t) * 24 + dt_hour t) * 60
    + dt_minute t) * 60 + dt_second t) * 1000000 + dt_microsecond t.

(** [a < b].  Two naive values compare by wall clock, two aware values by
    instant; mixing the two raises [TypeError]. *)
Definition dt_lt (a b : datetime) : raising bool :=
  match tzinfo a, tzinfo b with
  | None, None => inr (wall_micros a <? wall_micros b)
  | Some oa, Some ob => inr (wall_micros a - oa <? wall_micros b - ob)
  | _, _ => inl TypeError
  end.

(** [a > b] *)
Definition dt_gt (a b : datetime) : raising bool := dt_lt b a.

(** [a == b]: never raises, a naive and an aware value are unequal. *)
Definition dt_eq (a b : datetime) : bool :=
  match tzinfo a, tzinfo b with
  | None, None => wall_micros a =? wall_micros b
  | Some oa, Some ob => wall_micros a - oa =? wall_micros b - ob
  | _, _ => false
  end.

Fixpoint zeros (k : nat) : string :=
  match k with
  | O => EmptyString
  | S k' => String "0" (zeros k')
  end.

(** [s.zfill(n)] on the decimal digits of a non-negative number. *)
Definition zfill (n : nat) (s : string) : string :=
  zeros (n - String.length s) ++ s.

(** [t.strftime("%Y-%m-%d")] as CPython 3.11 prints it through the GNU C
    library: the year in decimal without padding (year 999 gives
    [999-01-01]), the month and the day on two digits. *)
Definition strftime_ymd (t : datetime) : string :=
  pretty (dt_year t) ++ "-" ++ zfill 2 (pretty (dt_month t))
  ++ "-" ++ zfill 2 (pretty (dt_day t)).

(** [s.replace('Z', '+00:00')] *)
Fixpoint replace_Z (s : string) : string :=
  match s with
  | EmptyString => EmptyString
  | String c s' =>
      if Ascii.eqb c "Z"%char then "+00:00" ++ replace_Z s'
      else String c (replace_Z s')
  end.

(** ** Data model *)

Record EarningDetail (A : Type) := {
  earning_code : string;
  label : string;
  amount : A
}.
Arguments earning_code {A}.
Arguments label {A}.
Arguments amount {A}.

Record FiscalYearEarnings (A : Type) := {
  year : Z;
  net_pay : A;
  total_gross_earnings : A;
  earnings_by_type : Dict.t (EarningDetail A);
  earnings_by_category : Dict.t A
}.
Arguments year {A}.
Arguments net_pay {A}.
Arguments total_gross_earnings {A}.
Arguments earnings_by_type {A}.
Arguments earnings_by_category {A}.

Record FiscalYearResult (A : Type) := {
  start_date : string;
  end_date : string;
  fy_year : Z;
  fy_net_pay : A;
  fy_total_gross_earnings : A;
  fy_earnings_by_type : Dict.t (EarningDetail A);
  fy_earnings_by_category : Dict.t A
}.
Arguments start_date {A}.
Arguments end_date {A}.
Arguments fy_year {A}.
Arguments fy_net_pay {A}.
Arguments fy_total_gross_earnings {A}.
Arguments fy_earnings_by_type {A}.
Arguments fy_earnings_by_category {A}.

Record SummaryResult (A : Type) := {
  current_fy : FiscalYearResult A;
  last_fy : FiscalYearResult A
}.
Arguments current_fy {A}.
Arguments last_fy {A}.

(** ** The payloads of the remote API *)

(** One element of a run's ["earnings"] array: [earning.get("type", "")]
    and [earning.get("amount")] ([None] when the key is absent or null). *)
Record earning (A : Type) := {
  e_type : string;
  e_amount : option A
}.
Arguments e_type {A}.
Arguments e_amount {A}.

(** [run.get("check_date")]: absent or null, a JSON value that is not a
    string (with its truth value), or a string. *)
Inductive check_date_field :=
| CdNone
| CdNotString (truthy : bool)
| CdString (s : string).

(** One payroll run of a page. *)
Record run (A : Type) := {
  check_date : check_date_field;
  run_net_pay : option A;
  earnings : list (earning A)
}.
Arguments check_date {A}.
Arguments run_net_pay {A}.
Arguments earnings {A}.

(** An HTTP response: status, raw body, and the two fields read from its
    JSON document, [data.get("results", [])] and [data.get("next")].  The
    body is taken as already decoded and of the documented shape: a JSON
    object whose [results] is a list of runs, in which every net pay and
    every amount is null or a number that [float] converts.  What the source
    does on other bodies (a body that is not JSON, [results: null], a net pay
    such as ["abc"]) is outside this model. *)
Record response (A : Type) := {
  status_code : Z;
  text : string;
  results : list (run A);
  next : option string
}.
Arguments status_code {A}.
Arguments text {A}.
Arguments results {A}.
Arguments next {A}.

(** A request as handed to [client.get]. *)
Record request := {
  url : string;
  params : Dict.t string;
  headers : Dict.t string
}.

(** What a call that performs requests comes to: it returns, it raises, or
    it is left waiting for a response that the scripted transport does not
    hold. *)
Inductive outcome (T : Type) :=
| Returned (v : T)
| Raised (e : exn)
| Pending.
Arguments Returned {T}.
Arguments Raised {T}.
Arguments Pending {T}.

(** Truth value of an optional string: [None] and [""] are false. *)
Definition truthy_str (s : option string) : bool :=
  match s with
  | None => false
  | Some s' => negb (String.eqb s' "")
  end.

(** ** Period fetcher *)

(** What the in-memory check-date filter decides for one run. *)
Inductive verdict :=
| Skip
| Keep
| Escape (e : exn).

Section PeriodFetcher.
Context {A : Type} `{Amount A}.

(** [datetime.fromisoformat], [None] when it raises [ValueError]. *)
Variable fromisoformat : string -> option datetime.

(** Lines 289-292: the category of an earning code. *)
Definition resolve_category (category_map : gmap string string)
    (earning_code : string) : string :=
  default
    (default "Other Allowances"
       (category_map !! "Other Allowances or Earnings"))
    (category_map !! earning_code).

(** [detail.amount += amount] *)
Definition add_to_detail (x : A) (d : EarningDetail A) : EarningDetail A :=
  {| earning_code := earning_code d; label := label d;
     amount := aplus (amount d) x |}.

(** Lines 265-296: the body of the loop over a run's earnings. *)
Definition process_earning (earnings_map category_map : gmap string string)
    (result : FiscalYearEarnings A) (e : earning A)
    : FiscalYearEarnings A :=
  let earning_code := e_type e in
  match e_amount e with
  | None => result
  | Some amount =>
      if eq_zero amount then result
      else
        let label := default earning_code (earnings_map !! earning_code) in
        let by_type :=
          Dict.alter (add_to_detail amount) earning_code
            (Dict.setdefault earning_code
               {| earning_code := earning_code; label := label;
                  amount := azero |}
               (earnings_by_type result)) in
        let category := resolve_category category_map earning_code in
        let by_category :=
          Dict.alter (fun v => aplus v amount) category
            (Dict.setdefault category azero (earnings_by_category result)) in
        {| year := year result;
           net_pay := net_pay result;
           total_gross_earnings := aplus (total_gross_earnings result) amount;
           earnings_by_type := by_type;
           earnings_by_category := by_category |}
  end.

(** Lines 244-254: the check-date filter.  A missing, null or otherwise
    false field takes the [else: continue] branch; a true value that is
    not a string has no [replace] ([AttributeError], caught); a string
    that [fromisoformat] rejects raises [ValueError] (caught).  The two
    comparisons run inside the [try], whose handler does not catch
    [TypeError]. *)
Definition check_date_filter (start_date end_date : datetime) (r : run A)
    : verdict :=
  match check_date r with
  | CdNone => Skip
  | CdNotString _ => Skip
  | CdString check_date_str =>
      if String.eqb check_date_str "" then Skip
      else
        match fromisoformat (replace_Z check_date_str) with
        | None => Skip
        | Some cd =>
            match dt_lt cd start_date with
            | inl e => Escape e
            | inr true => Skip
            | inr false =>
                match dt_gt cd end_date with
                | inl e => Escape e
                | inr true => Skip
                | inr false => Keep
                end
            end
        end
  end.

(** Lines 257-259. *)
Definition add_net_pay (result : FiscalYearEarnings A) (r : run A)
    : FiscalYearEarnings A :=
  match run_net_pay r with
  | None => result
  | Some n =>
      {| year := year result;
         net_pay := aplus (net_pay result) n;
         total_gross_earnings := total_gross_earnings result;
         earnings_by_type := earnings_by_type result;
         earnings_by_category := earnings_by_category result |}
  end.

(** The verdict that applies to a run under the given flag. *)
Definition run_verdict (use_check_date_filtering : bool)
    (start_date end_date : datetime) (r : run A) : verdict :=
  if use_check_date_filtering then check_date_filter start_date end_date r
  else Keep.

(** Lines 241-296: the body of the loop over a page's runs. *)
Definition process_run (use_check_date_filtering : bool)
    (start_date end_date : datetime)
    (earnings_map category_map : gmap string string)
    (result : FiscalYearEarnings A) (r : run A)
    : raising (FiscalYearEarnings A) :=
  match run_verdict use_check_date_filtering start_date end_date r with
  | Skip => inr result
  | Escape e => inl e
  | Keep =>
      inr (fold_left (process_earning earnings_map category_map)
             (earnings r) (add_net_pay result r))
  end.

(** [for run in results: ...] *)
Fixpoint process_results (use_check_date_filtering : bool)
    (start_date end_date : datetime)
    (earnings_map category_map : gmap string string)
    (runs : list (run A)) (result : FiscalYearEarnings A)
    : raising (FiscalYearEarnings A) :=
  match runs with
  | [] => inr result
  | r :: runs' =>
      match process_run use_check_date_filtering start_date end_date
              earnings_map category_map result r with
      | inl e => inl e
      | inr result' =>
          process_results use_check_date_filtering start_date end_date
            earnings_map category_map runs' result'
      end
  end.

(** Lines 210-219. *)
Definition query_params (employee_id : string)
    (start_date end_date : datetime) (use_check_date_filtering : bool)
    : Dict.t string :=
  let q := [("employee_id", employee_id);
            ("expand", "earnings,deductions,taxes");
            ("page_size", "100")] in
  if use_check_date_filtering then q
  else Dict.set "ended_before" (strftime_ymd end_date)
         (Dict.set "ended_after" (strftime_ymd start_date) q).

(** Lines 221-225. *)
Definition request_headers (merge_api_key merge_account_token : string)
    : Dict.t string :=
  [("Authorization", "Bearer " ++ merge_api_key);
   ("X-Account-Token", merge_account_token);
   ("Accept", "application/json")].

(** Lines 229-233: the request of one iteration. *)
Definition build_request (base_url : string) (q hdrs : Dict.t string)
    (cursor : option string) : request :=
  {| url := base_url;
     params := match cursor with
               | Some c => if truthy_str cursor then Dict.set "cursor" c q
                           else q
               | None => q
               end;
     headers := hdrs |}.

(** Line 236: the message of the raised exception. *)
Definition api_error_message (resp : response A) : string :=
  "Merge API error " ++ pretty (status_code resp) ++ ": " ++ text resp.

(** Lines 227-301: the [while True] loop.  [responses] is what the
    transport answers, request after request, each body decoded as
    [response] says; the second component of the result lists the requests
    made.  The exceptions of [response.json()] and of [float] on a body of
    another shape have no counterpart here. *)
Fixpoint fetch_loop (base_url : string) (q hdrs : Dict.t string)
    (use_check_date_filtering : bool) (start_date end_date : datetime)
    (earnings_map category_map : gmap string string)
    (responses : list (response A)) (cursor : option string)
    (result : FiscalYearEarnings A)
    : outcome (FiscalYearEarnings A) * list request :=
  let req := build_request base_url q hdrs cursor in
  match responses with
  | [] => (Pending, [req])
  | resp :: responses' =>
      if negb (status_code resp =? 200)
      then (Raised (Exception (api_error_message resp)), [req])
      else
        match process_results use_check_date_filtering start_date end_date
                earnings_map category_map (results resp) result with
        | inl e => (Raised e, [req])
        | inr result' =>
            if truthy_str (next resp)
            then
              let (o, reqs) :=
                fetch_loop base_url q hdrs use_check_date_filtering
                  start_date end_date earnings_map category_map
                  responses' (next resp) result' in
              (o, req :: reqs)
            else (Returned result', [req])
        end
  end.

(** Lines 201-207. *)
Definition empty_earnings (y : Z) : FiscalYearEarnings A :=
  {| year := y; net_pay := azero; total_gross_earnings := azero;
     earnings_by_type := []; earnings_by_category := [] |}.

(** Lines 187-303. *)
Definition _fetch_payroll_runs_for_period
    (responses : list (response A)) (base_url employee_id : string)
    (start_date end_date : datetime) (year : Z)
    (merge_api_key merge_account_token : string)
    (earnings_map category_map : gmap string string)
    (use_check_date_filtering : bool)
    : outcome (FiscalYearEarnings A) * list request :=
  fetch_loop base_url
    (query_params employee_id start_date end_date use_check_date_filtering)
    (request_headers merge_api_key merge_account_token)
    use_check_date_filtering start_date end_date earnings_map category_map
    responses None (empty_earnings year).
End PeriodFetcher.

(** ** Mapping loader *)

(** A path is the list of its components; a file system maps the path of
    a readable regular file to its content. *)
Definition path := list string.
Definition filesystem := path -> option string.

Section MappingLoader.
(** [json.load], [None] when the document is not valid JSON. *)
Variable json_load : string -> option (gmap string string).

(** Lines 171-176, for a relative [filename]. *)
Definition possible_paths (cwd module_dir : path) (filename : string)
    : list path :=
  [(cwd ++ [filename])%list;
   (cwd ++ ["payroll"; filename])%list;
   (module_dir ++ [filename])%list;
   (module_dir ++ ["payroll"; filename])%list].

(** Lines 178-184. *)
Fixpoint load_first (fs : filesystem) (paths : list path)
    : raising (gmap string string) :=
  match paths with
  | [] => inr ∅
  | p :: paths' =>
      match fs p with
      | Some content =>
          match json_load content with
          | Some m => inr m
          | None => inl JSONDecodeError
          end
      | None => load_first fs paths'
      end
  end.

Definition _load_mapping_file (fs : filesystem) (cwd module_dir : path)
    (filename : string) : raising (gmap string string) :=
  load_first fs (possible_paths cwd module_dir filename).
End MappingLoader.

(** ** Summary orchestrator *)

Definition HOSTS : Dict.t string :=
  [("US", "https://api.merge.dev");
   ("EU", "https://api.eu.merge.dev");
   ("APAC", "https://api.apac.merge.dev")].

(** Everything outside the program that one invocation reads: the process
    environment, the clock, the file system, and what the remote API answers
    to the requests of each of the two fetches. *)
Record world (A : Type) := {
  getenv : string -> option string;
  now_utc : datetime;
  fs : filesystem;
  cwd : path;
  module_dir : path;
  this_fy_responses : list (response A);
  last_fy_responses : list (response A)
}.
Arguments getenv {A}.
Arguments now_utc {A}.
Arguments fs {A}.
Arguments cwd {A}.
Arguments module_dir {A}.
Arguments this_fy_responses {A}.
Arguments last_fy_responses {A}.

(** [await asyncio.gather(a, b)]: both values, or the exception of a task
    that raised.  When both raise, the source reports whichever raised
    first; the first task's is taken here. *)
Definition gather {T U : Type} (a : outcome T) (b : outcome U)
    : outcome (T * U) :=
  match a, b with
  | Raised e, _ => Raised e
  | _, Raised e => Raised e
  | Returned x, Returned y => Returned (x, y)
  | _, _ => Pending
  end.

Notation "'attempt' x <- e ; k" :=
  (match e with inl err => Raised err | inr x => k end)
  (at level 10, x name, e at level 100, k at level 200, only parsing).

Section Orchestrator.
Context {A : Type} `{Amount A}.
Variable fromisoformat : string -> option datetime.
Variable json_load : string -> option (gmap string string).

(** Lines 102-113: the same month and day of the year before, at
    midnight UTC. *)
Definition one_year_earlier (t : datetime) : raising datetime :=
  datetime_new (dt_year t - 1) (dt_month t) (dt_day t) utc.

(** Lines 95-98: [current_fy_start or datetime(current_year, 1, 1, ...)]. *)
Definition this_fy_start_of (w : world A) (current_fy_start : option datetime)
    : raising datetime :=
  match current_fy_start with
  | Some t => inr t
  | None => datetime_new (dt_year (now_utc w)) 1 1 utc
  end.

(** Lines 95-99: [current_fy_end or datetime(current_year, 12, 31, ...)]. *)
Definition this_fy_end_of (w : world A) (current_fy_end : option datetime)
    : raising datetime :=
  match current_fy_end with
  | Some t => inr t
  | None => datetime_new (dt_year (now_utc w)) 12 31 utc
  end.

(** Lines 147-166: one half of the summary. *)
Definition to_result (start_date end_date : datetime)
    (data : FiscalYearEarnings A) : FiscalYearResult A :=
  {| start_date := strftime_ymd start_date;
     end_date := strftime_ymd end_date;
     fy_year := year data;
     fy_net_pay := net_pay data;
     fy_total_gross_earnings := total_gross_earnings data;
     fy_earnings_by_type := earnings_by_type data;
     fy_earnings_by_category := earnings_by_category data |}.

(** Lines 65-166. *)
Definition summarize_employee_payroll_runs (w : world A)
    (employee_id : string) (current_fy_start current_fy_end : option datetime)
    (region : string) (use_check_date_filtering : bool)
    (earnings_map_file category_map_file : string)
    : outcome (SummaryResult A) :=
  attempt host <- match Dict.get region HOSTS with
             | Some h => inr h
             | None => inl KeyError
             end;
  let base_url := host ++ "/api/hris/v1/employee-payroll-runs" in
  let merge_api_key := default "" (getenv w "MERGE_API_KEY") in
  let merge_account_token := default "" (getenv w "MERGE_ACCOUNT_TOKEN") in
  attempt this_fy_start <- this_fy_start_of w current_fy_start;
  attempt this_fy_end <- this_fy_end_of w current_fy_end;
  attempt last_fy_start <- one_year_earlier this_fy_start;
  attempt last_fy_end <- one_year_earlier this_fy_end;
  let this_fy := dt_year this_fy_end in
  let last_fy := dt_year last_fy_end in
  attempt earnings_map <- _load_mapping_file json_load (fs w) (cwd w)
                       (module_dir w) earnings_map_file;
  attempt category_map <- _load_mapping_file json_load (fs w) (cwd w)
                       (module_dir w) category_map_file;
  let this_fy_task :=
    fst (_fetch_payroll_runs_for_period fromisoformat (this_fy_responses w)
           base_url employee_id this_fy_start this_fy_end this_fy
           merge_api_key merge_account_token earnings_map category_map
           use_check_date_filtering) in
  let last_fy_task :=
    fst (_fetch_payroll_runs_for_period fromisoformat (last_fy_responses w)
           base_url employee_id last_fy_start last_fy_end last_fy
           merge_api_key merge_account_token earnings_map category_map
           use_check_date_filtering) in
  match gather this_fy_task last_fy_task with
  | Returned (this_fy_data, last_fy_data) =>
      Returned
        {| current_fy := to_result this_fy_start this_fy_end this_fy_data;
           last_fy := to_result last_fy_start last_fy_end last_fy_data |}
  | Raised e => Raised e
  | Pending => Pending
  end.
End Orchestrator.

(** ** Vocabulary of the properties *)

Section Vocabulary.
Context {A : Type} `{Amount A}.
Variable fromisoformat : string -> option datetime.

(** Sum of the amounts of all entries of [earnings_by_type]. *)
Definition sum_by_type (r : FiscalYearEarnings A) : A :=
  sum_amounts (map amount (Dict.values (earnings_by_type r))).

(** Sum of all values of [earnings_by_category]. *)
Definition sum_by_category (r : FiscalYearEarnings A) : A :=
  sum_amounts (Dict.values (earnings_by_category r)).

(** A run that the filter lets through. *)
Definition survives (use_check_date_filtering : bool)
    (start_date end_date : datetime) (r : run A) : bool :=
  match run_verdict fromisoformat use_check_date_filtering
          start_date end_date r with
  | Keep => true
  | _ => false
  end.

(** The net-pay fields that are present, in order. *)
Fixpoint net_pays (runs : list (run A)) : list A :=
  match runs with
  | [] => []
  | r :: runs' =>
      match run_net_pay r with
      | Some n => n :: net_pays runs'
      | None => net_pays runs'
      end
  end.

(** All runs of a list of pages, in order. *)
Definition all_runs (pages : list (response A)) : list (run A) :=
  concat (map results pages).

(** A page after which the loop goes on. *)
Definition has_next (p : response A) : Prop := truthy_str (next p) = true.

End Vocabulary.

(** ** Vocabulary of the check-date filter *)

(** The check date that a run carries, when its field is a non-empty
    string that [fromisoformat] accepts once the Z suffix is rewritten. *)
Definition parsed_check_date {A : Type}
    (fromisoformat : string -> option datetime) (r : run A)
    : option datetime :=
  match check_date r with
  | CdString s => if String.eqb s "" then None else fromisoformat (replace_Z s)
  | _ => None
  end.

(** A window whose start is not after its end. *)
Definition window (start_date end_date : datetime) : Prop :=
  dt_gt start_date end_date = inr false.

(** What processing a run amounts to when the run is let through. *)
Definition included {A : Type} `{Amount A}
    (earnings_map category_map : gmap string string)
    (result : FiscalYearEarnings A) (r : run A) : FiscalYearEarnings A :=
  fold_left (process_earning earnings_map category_map) (earnings r)
    (add_net_pay result r).

(** ** Sample data *)

Definition midnight_utc (y m d : Z) : datetime :=
  {| dt_year := y; dt_month := m; dt_day := d; dt_hour := 0; dt_minute := 0;
     dt_second := 0; dt_microsecond := 0; tzinfo := utc |}.

(** A parser that knows a handful of timestamps. *)
Definition sample_fromisoformat (s : string) : option datetime :=
  Dict.get s
    [("2024-02-29T00:00:00+00:00", midnight_utc 2024 2 29);
     ("2024-03-01T00:00:00+00:00", midnight_utc 2024 3 1);
     ("2024-09-15T00:00:00+00:00", midnight_utc 2024 9 15);
     ("2025-02-28T00:00:00+00:00", midnight_utc 2025 2 28);
     ("2025-03-01T00:00:00+00:00", midnight_utc 2025 3 1);
     ("2024-09-15T00:00:00",
      {| dt_year := 2024; dt_month := 9; dt_day := 15; dt_hour := 0;
         dt_minute := 0; dt_second := 0; dt_microsecond := 0;
         tzinfo := None |})].

Definition sample_category_map : gmap string string :=
  <["REG" := "Base"]> (<["OT" := "Overtime"]> ∅).

Definition line {A : Type} (code : string) (x : A) : earning A :=
  {| e_type := code; e_amount := Some x |}.

Definition sample_start : datetime := midnight_utc 2024 3 1.
Definition sample_end : datetime := midnight_utc 2025 2 28.

Definition plain_run {A : Type} (pay : option A) (es : list (earning A))
    : run A :=
  {| check_date := CdNone; run_net_pay := pay; earnings := es |}.

Definition page {A : Type} (runs : list (run A)) (cursor : option string)
    : response A :=
  {| status_code := 200; text := ""; results := runs; next := cursor |}.

(** Two pages, two earning codes: REG 1000 and OT 200, then REG 500. *)
Definition exact_pages : list (response Z) :=
  [page [plain_run (Some 900) [line "REG" 1000; line "OT" 200]]
     (Some "cD0y");
   page [plain_run (Some 400) [line "REG" 500; line "BON" 0]] None].

(** One page with the amounts 1000.1 (REG), 500.2 (OT) and 200.3 (REG),
    each the binary64 number nearest to the decimal. *)
Definition float_pages : list (response float) :=
  [page [plain_run None
           [line "REG" 0x1.f40cccccccccdp+9%float;
            line "OT" 0x1.f433333333333p+8%float;
            line "REG" 0x1.909999999999ap+7%float]] None].

(** A period fetch over the sample window with fixed credentials. *)
Definition sample_fetch {A : Type} `{Amount A}
    (responses : list (response A)) (use_check_date_filtering : bool)
    : outcome (FiscalYearEarnings A) * list request :=
  _fetch_payroll_runs_for_period sample_fromisoformat responses
    "https://api.merge.dev/api/hris/v1/employee-payroll-runs"
    "63ba045d-a1dc-465f-a5ba-798c1d333278" sample_start sample_end 2025
    "key" "token" ∅ sample_category_map use_check_date_filtering.


(** A single response with status 204 and an empty list of runs. *)
Definition no_content_pages : list (response Z) :=
  [{| status_code := 204; text := "No Content"; results := []; next := None |}].



Definition dated_run (d : check_date_field) (pay : Z) : run Z :=
  {| check_date := d; run_net_pay := Some pay; earnings := [line "REG" pay] |}.

(** Runs dated the day before the sample window, on its first day, inside
    it, on its last day, the day after, and with unusable dates. *)
Definition dated_pages : list (response Z) :=
  [page [dated_run (CdString "2024-02-29T00:00:00Z") 1;
         dated_run (CdString "2024-03-01T00:00:00Z") 20;
         dated_run (CdString "not a date") 300;
         dated_run CdNone 4000]
     (Some "cD00");
   page [dated_run (CdString "2024-09-15T00:00:00Z") 50000;
         dated_run (CdNotString true) 600000;
         dated_run (CdString "2025-02-28T00:00:00Z") 7000000;
         dated_run (CdString "2025-03-01T00:00:00Z") 80000000]
     None].

(** A document that the sample JSON reader understands, and its reading. *)
Definition sample_document : string := "{ REG: Regular, OT: Overtime }".

Definition sample_json_load (content : string)
    : option (gmap string string) :=
  if String.eqb content sample_document
  then Some (<["REG" := "Regular"]> (<["OT" := "Overtime"]> ∅))
  else None.

(** A file system with the earnings map in the [payroll] directory under
    the working directory, and a file that is not JSON beside the module. *)
Definition sample_fs : filesystem := fun p =>
  if decide (p = ["srv"; "app"; "payroll"; "earnings_ukg.json"])
  then Some sample_document
  else if decide (p = ["opt"; "snippets"; "earnings_to_aon.json"])
  then Some "REG -> Base"
  else None.

Definition sample_world : world Z :=
  {| getenv := fun name =>
       if String.eqb name "MERGE_API_KEY" then Some "key"
       else if String.eqb name "MERGE_ACCOUNT_TOKEN" then Some "token"
       else None;
     now_utc := midnight_utc 2026 11 4;
     fs := fun _ => None;
     cwd := ["srv"; "app"];
     module_dir := ["opt"; "snippets"];
     this_fy_responses := exact_pages;
     last_fy_responses := [page [plain_run (Some 400) [line "REG" 500]] None]
  |}.

(** The summary of the sample world for a given current window. *)
Definition sample_summary (this_fy_start this_fy_end : datetime)
    : outcome (SummaryResult Z) :=
  summarize_employee_payroll_runs sample_fromisoformat sample_json_load
    sample_world "63ba045d-a1dc-465f-a5ba-798c1d333278"
    (Some this_fy_start) (Some this_fy_end) "US" false
    "earnings_ukg.json" "earnings_to_aon.json".

(** February 29 as a date of the calendar. *)
Definition is_feb_29 (t : datetime) : Prop := dt_month t = 2 /\ dt_day t = 29.

(** Absence of a file. *)
Definition missing (fs : filesystem) (p : path) : Prop := fs p = None.


(** ** Vocabulary of the aggregation *)

Section Aggregation.
Context {A : Type} `{Amount A}.

(** An earning line that is accumulated: its amount is present and does
    not compare equal to zero. *)
Definition accepted (e : earning A) : bool :=
  match e_amount e with
  | Some a => negb (eq_zero a)
  | None => false
  end.

(** The amounts of the accepted lines, in order. *)
Fixpoint accepted_amounts (es : list (earning A)) : list A :=
  match es with
  | [] => []
  | e :: es' =>
      match e_amount e with
      | Some a =>
          if eq_zero a then accepted_amounts es' else a :: accepted_amounts es'
      | None => accepted_amounts es'
      end
  end.

(** The lines whose earning code is [code]. *)
Definition with_code (code : string) (es : list (earning A))
    : list (earning A) :=
  List.filter (fun e => String.eqb (e_type e) code) es.

(** The lines whose category, by the fallback chain, is [category]. *)
Definition in_category (category_map : gmap string string)
    (category : string) (es : list (earning A)) : list (earning A) :=
  List.filter
    (fun e => String.eqb (resolve_category category_map (e_type e)) category)
    es.

(** The earning lines of the runs that the filter lets through, over the
    given pages, in order. *)
Definition lines_read (fromisoformat : string -> option datetime)
    (use_check_date_filtering : bool) (start_date end_date : datetime)
    (pages : list (response A)) : list (earning A) :=
  flat_map earnings
    (List.filter
       (survives fromisoformat use_check_date_filtering start_date end_date)
       (all_runs pages)).

(** The same accumulator with another net pay. *)
Definition with_net_pay (n : A) (r : FiscalYearEarnings A)
    : FiscalYearEarnings A :=
  {| year := year r; net_pay := n;
     total_gross_earnings := total_gross_earnings r;
     earnings_by_type := earnings_by_type r;
     earnings_by_category := earnings_by_category r |}.

(** The amount accumulated so far under an earning code, zero when the code
    has no entry. *)
Definition code_amount (code : string) (r : FiscalYearEarnings A) : A :=
  match Dict.get code (earnings_by_type r) with
  | Some d => amount d
  | None => azero
  end.

(** The amount accumulated so far under a category, zero when the category
    has no entry. *)
Definition category_amount (category : string) (r : FiscalYearEarnings A)
    : A :=
  default azero (Dict.get category (earnings_by_category r)).

(** Every entry per code is filed under its own code and carries the label
    that the earnings map gives to the code, or the code itself. *)
Definition labelled (earnings_map : gmap string string)
    (r : FiscalYearEarnings A) : Prop :=
  forall code d,
    Dict.get code (earnings_by_type r) = Some d ->
    earning_code d = code
    /\ label d = default code (earnings_map !! code).

(** Every category that has an entry is a value of the category map or the
    literal fallback. *)
Definition categorised (category_map : gmap string string)
    (r : FiscalYearEarnings A) : Prop :=
  forall category x,
    Dict.get category (earnings_by_category r) = Some x ->
    category = "Other Allowances"
    \/ exists code, category_map !! code = Some category.

(** What every request of one fetch has in common. *)
Definition well_formed_request (base_url employee_id : string)
    (start_date end_date : datetime)
    (merge_api_key merge_account_token : string)
    (use_check_date_filtering : bool) (req : request) : Prop :=
  url req = base_url
  /\ headers req
     = [("Authorization", "Bearer " ++ merge_api_key);
        ("X-Account-Token", merge_account_token);
        ("Accept", "application/json")]
  /\ Dict.get "employee_id" (params req) = Some employee_id
  /\ Dict.get "expand" (params req) = Some "earnings,deductions,taxes"
  /\ Dict.get "page_size" (params req) = Some "100"
  /\ Dict.get "ended_after" (params req)
     = (if use_check_date_filtering then None
        else Some (strftime_ymd start_date))
  /\ Dict.get "ended_before" (params req)
     = (if use_check_date_filtering then None
        else Some (strftime_ymd end_date)).
End Aggregation.

(** The runs of [exact_pages] served on a single page. *)
Definition exact_one_page : list (response Z) :=
  [page [plain_run (Some 900) [line "REG" 1000; line "OT" 200];
         plain_run (Some 400) [line "REG" 500; line "BON" 0]] None].

(** ** Environment files

    Text is read with code points below 256, one [ascii] per character.
    [os.environ] is a finite map from names to values. *)

Definition LF : ascii := "010"%char.
Definition CR : ascii := "013"%char.
Definition NUL : ascii := "000"%char.
Definition DQ : ascii := "034"%char.
Definition SQ : ascii := "039"%char.

(** [c.isspace()] *)
Definition isspace (c : ascii) : bool :=
  let n := nat_of_ascii c in
  ((9 <=? n) && (n <=? 13) || (28 <=? n) && (n <=? 32)
   || (n =? 133) || (n =? 160))%nat.

(** [s.lstrip()] *)
Fixpoint lstrip (s : string) : string :=
  match s with
  | EmptyString => EmptyString
  | String c s' => if isspace c then lstrip s' else s
  end.

(** [s.rstrip()] *)
Fixpoint rstrip (s : string) : string :=
  match s with
  | EmptyString => EmptyString
  | String c s' =>
      match rstrip s' with
      | EmptyString => if isspace c then EmptyString else String c EmptyString
      | t => String c t
      end
  end.

(** [s.strip()] *)
Definition strip (s : string) : string := rstrip (lstrip s).

(** [s.startswith(p)] *)
Definition startswith (s p : string) : bool := String.prefix p s.

(** [s.endswith(p)] *)
Definition endswith (s p : string) : bool :=
  (String.length p <=? String.length s)%nat
  && String.eqb
       (String.substring (String.length s - String.length p)
          (String.length p) s) p.

(** [s[a:-b]] for [len(s) >= a + b] and [b > 0] *)
Definition slice (a b : nat) (s : string) : string :=
  String.substring a (String.length s - a - b) s.

(** [s.split('=', 1)] when it has two parts: what is before and what is
    after the first ['=']. *)
Fixpoint split_eq (s : string) : option (string * string) :=
  match s with
  | EmptyString => None
  | String c s' =>
      if Ascii.eqb c "="%char then Some (EmptyString, s')
      else match split_eq s' with
           | Some (k, v) => Some (String c k, v)
           | None => None
           end
  end.

Definition DQ1 : string := String DQ EmptyString.
Definition DQ2 : string := String DQ DQ1.
Definition DQ3 : string := String DQ DQ2.
Definition SQ1 : string := String SQ EmptyString.
Definition SQ2 : string := String SQ SQ1.

(** Lines 327-339: the handling of quoted values. *)
Definition unquote (value : string) : string :=
  if startswith value DQ3 && endswith value DQ3
     && (6 <=? String.length value)%nat
  then slice 3 3 value
  else if String.eqb value DQ3 then EmptyString
  else if startswith value DQ1 && endswith value DQ1
          && (2 <=? String.length value)%nat
  then slice 1 1 value
  else if String.eqb value DQ2 then EmptyString
  else if startswith value SQ1 && endswith value SQ1
          && (2 <=? String.length value)%nat
  then slice 1 1 value
  else if String.eqb value SQ2 then EmptyString
  else value.

(** Lines 313-339: the name and the value that a line assigns, if any. *)
Definition parse_env_line (line : string) : option (string * string) :=
  let line := strip line in
  if String.eqb line "" || startswith line "#" then None
  else
    match split_eq line with
    | None => None
    | Some (k, v) => Some (strip k, unquote (strip v))
    end.

(** The lines that iterating over a text file yields, line ends
    ([\n], [\r\n] or [\r]) translated to [\n]. *)
Fixpoint file_lines (s : string) : list string :=
  match s with
  | EmptyString => []
  | String c s' =>
      if Ascii.eqb c LF then String LF EmptyString :: file_lines s'
      else if Ascii.eqb c CR then
        match s' with
        | String c' s'' =>
            if Ascii.eqb c' LF then String LF EmptyString :: file_lines s''
            else String LF EmptyString :: file_lines s'
        | EmptyString => [String LF EmptyString]
        end
      else
        match file_lines s' with
        | [] => [String c EmptyString]
        | l :: ls => String c l :: ls
        end
  end.

(** Whether a string holds a NUL character. *)
Fixpoint has_nul (s : string) : bool :=
  match s with
  | EmptyString => false
  | String c s' => Ascii.eqb c NUL || has_nul s'
  end.

(** Why [os.environ[key] = value] can fail for a name without ['=']: a NUL
    in the name or the value, or an empty name. *)
Inductive env_failure :=
| EmbeddedNull
| IllegalName.

(** [os.environ[key] = value] *)
Definition setenv (key value : string) (environ : gmap string string)
    : env_failure + gmap string string :=
  if has_nul key || has_nul value then inl EmbeddedNull
  else if String.eqb key "" then inl IllegalName
  else inr (<[key := value]> environ).

(** Line 342: what is printed for the two credential names. *)
Definition key_report (line_num : nat) (key value : string) : string :=
  "  Line " ++ pretty line_num ++ ": " ++ key ++ " = "
  ++ (if String.eqb value "" then "(empty)"
      else "***" ++ pretty (String.length value) ++ " chars***").

Definition is_credential (key : string) : bool :=
  String.eqb key "MERGE_API_KEY" || String.eqb key "MERGE_ACCOUNT_TOKEN".

(** What loading an environment file comes to: the exception that ended
    it, if any, the environment it leaves, and what it printed. *)
Record env_load := {
  failure : option env_failure;
  environ_after : gmap string string;
  printed : list string
}.

(** Lines 312-344: the loop over the lines, numbered from [line_num]. *)
Fixpoint load_env_lines (line_num : nat) (lines : list string)
    (environ : gmap string string) (out : list string) : env_load :=
  match lines with
  | [] => {| failure := None; environ_after := environ; printed := out |}
  | line :: lines' =>
      match parse_env_line line with
      | None => load_env_lines (S line_num) lines' environ out
      | Some (key, value) =>
          let out' :=
            if is_credential key
            then (out ++ [key_report line_num key value])%list
            else out in
          match setenv key value environ with
          | inl e =>
              {| failure := Some e; environ_after := environ;
                 printed := out' |}
          | inr environ' => load_env_lines (S line_num) lines' environ' out'
          end
      end
  end.

(** Lines 306-344. *)
Definition _load_env_file (fs : filesystem) (p : path)
    (environ : gmap string string) : env_load :=
  match fs p with
  | None => {| failure := None; environ_after := environ; printed := [] |}
  | Some content => load_env_lines 1 (file_lines content) environ []
  end.

(** The assignments that a list of lines makes, in order. *)
Fixpoint assignments (lines : list string) : list (string * string) :=
  match lines with
  | [] => []
  | line :: lines' =>
      match parse_env_line line with
      | Some kv => kv :: assignments lines'
      | None => assignments lines'
      end
  end.

(** The value that the last assignment to [key] gives, if there is one. *)
Fixpoint last_assigned (key : string) (kvs : list (string * string))
    : option string :=
  match kvs with
  | [] => None
  | (k, v) :: kvs' =>
      match last_assigned key kvs' with
      | Some v' => Some v'
      | None => if String.eqb k key then Some v else None
      end
  end.

(** An assignment that [os.environ] accepts. *)
Definition assignable (kv : string * string) : bool :=
  negb (has_nul (fst kv)) && negb (has_nul (snd kv))
  && negb (String.eqb (fst kv) "").

(** A sample environment file. *)
Definition sample_env_file : string :=
  "# credentials" ++ String LF
    ("MERGE_API_KEY = " ++ DQ1 ++ "k-123" ++ DQ1 ++ String CR (String LF
    ("" ++ String LF
    ("export nothing" ++ String LF
    ("MERGE_ACCOUNT_TOKEN='tok=en'" ++ String LF
    ("MERGE_API_KEY=k-456" ++ String LF "")))))).

(** The environment after a list of assignments that are all accepted. *)
Definition assigned (kvs : list (string * string))
    (environ : gmap string string) (key : string) : option string :=
  match last_assigned key kvs with
  | Some v => Some v
  | None => environ !! key
  end.

(** A name as it stands in a file: it begins with a character that is
    neither white space nor ['#'], does not end in white space and holds no
    ['=']. *)
Definition plain_name (k : string) : Prop :=
  (exists c k', k = String c k' /\ isspace c = false
                /\ Ascii.eqb c "#"%char = false)
  /\ rstrip k = k
  /\ split_eq k = None.

(** A file whose second line has an empty name. *)
Definition broken_env_file : string :=
  "A=1" ++ String LF ("=x" ++ String LF ("B=2" ++ String LF "")).

Definition env_fs (content : string) : filesystem := fun p =>
  if decide (p = ["srv"; "app"; ".env"]) then Some content else None.

(** A string of white space only. *)
Fixpoint blank (s : string) : bool :=
  match s with
  | EmptyString => true
  | String c s' => isspace c && blank s'
  end.

(** A string that neither starts nor ends with white space. *)
Definition trimmed (s : string) : Prop := lstrip s = s /\ rstrip s = s.

(** ** Amounts that are whole numbers of a unit *)

(** The magnitudes of a list of numbers, added up. *)
Definition magnitude (ns : list Z) : Z :=
  fold_right (fun n s => Z.abs n + s) 0 ns.

(** The numbers themselves, added up. *)
Definition units_sum (ns : list Z) : Z := fold_right Z.add 0 ns.

Section Units.
Context {A : Type} `{Amount A}.

(** [units n] is the amount of [n] units, zero units is the amount [0.0],
    and the addition of two such amounts is exact as long as their
    magnitudes together stay within [bound]. *)
Definition exact_within (units : Z -> A) (bound : Z) : Prop :=
  units 0 = azero
  /\ forall m n, Z.abs m + Z.abs n <= bound ->
       aplus (units m) (units n) = units (m + n).

(** An accumulator whose gross total, entries per code and entries per
    category are whole numbers of units, with the same sum, that were built
    from amounts of total magnitude at most [spent]. *)
Definition counted (units : Z -> A) (spent : Z) (r : FiscalYearEarnings A)
    : Prop :=
  exists (total : Z) (by_type by_category : list Z),
    total_gross_earnings r = units total
    /\ map amount (Dict.values (earnings_by_type r)) = map units by_type
    /\ Dict.values (earnings_by_category r) = map units by_category
    /\ units_sum by_type = total
    /\ units_sum by_category = total
    /\ Z.abs total <= spent
    /\ magnitude by_type <= spent
    /\ magnitude by_category <= spent.
End Units.

(** Binary64 amounts counted in halves: [halves n] is [n / 2]. *)
Definition halves (n : Z) : float :=
  PrimFloat.div
    (if n <? 0 then PrimFloat.opp (PrimFloat.of_uint63 (Uint63.of_Z (- n)))
     else PrimFloat.of_uint63 (Uint63.of_Z n))
    2%float.

(** Two pages of binary64 amounts that are whole numbers of halves: 1.5
    (REG) and 2.0 (OT), then -0.5 (REG), a zero line and 1.0 (OT). *)
Definition half_unit_pages : list (response float) :=
  [page [plain_run None [line "REG" 1.5%float; line "OT" 2%float]]
     (Some "cD0y");
   page [plain_run None [line "REG" (-0.5)%float; line "BON" 0%float;
                         line "OT" 1%float]] None].

(** A parser that also knows a date written without time and without UTC
    offset: [datetime.fromisoformat("2024-02-29")] is the naive midnight of
    that day. *)
Definition dateonly_fromisoformat (s : string) : option datetime :=
  if String.eqb s "2024-02-29"
  then Some {| dt_year := 2024; dt_month := 2; dt_day := 29; dt_hour := 0;
               dt_minute := 0; dt_second := 0; dt_microsecond := 0;
               tzinfo := None |}
  else sample_fromisoformat s.

(** A page whose first run is dated the day before the sample window, by a
    date without UTC offset, and whose second run is dated inside it. *)
Definition offsetless_pages : list (response Z) :=
  [page [dated_run (CdString "2024-02-29") 1;
         dated_run (CdString "2024-09-15T00:00:00Z") 50000] None].

(** * Properties *)

(** ** Dictionaries *)

Section DictFacts.
Context {V : Type}.
Implicit Types (d : Dict.t V) (k : string) (v : V).

Lemma get_set_eq k v d : Dict.get k (Dict.set k v d) = Some v.
Proof.
  induction d as [|[k' v'] d IH]; cbn.
  - now rewrite String.eqb_refl.
  - destruct (String.eqb k k') eqn:E; cbn; rewrite E; auto.
Qed.

Lemma get_set_ne k k' v d :
  k <> k' -> Dict.get k' (Dict.set k v d) = Dict.get k' d.
Proof.
  intros Hne. induction d as [|[k0 v0] d IH]; cbn.
  - destruct (String.eqb k' k) eqn:E; auto.
    apply String.eqb_eq in E. congruence.
  - destruct (String.eqb k k0) eqn:E; cbn.
    + apply String.eqb_eq in E. subst k0.
      destruct (String.eqb k' k) eqn:E'; auto.
      apply String.eqb_eq in E'. congruence.
    + now rewrite IH.
Qed.

Lemma get_alter_eq f k d :
  Dict.get k (Dict.alter f k d) = option_map f (Dict.get k d).
Proof.
  induction d as [|[k' v'] d IH]; cbn; auto.
  destruct (String.eqb k k') eqn:E; cbn; rewrite E; auto.
Qed.

Lemma get_alter_ne f k k' d :
  k <> k' -> Dict.get k' (Dict.alter f k d) = Dict.get k' d.
Proof.
  intros Hne. induction d as [|[k0 v0] d IH]; cbn; auto.
  destruct (String.eqb k k0) eqn:E; cbn.
  - apply String.eqb_eq in E. subst k0.
    destruct (String.eqb k' k) eqn:E'; auto.
    apply String.eqb_eq in E'. congruence.
  - now rewrite IH.
Qed.

Lemma get_setdefault_eq k v d :
  Dict.get k (Dict.setdefault k v d)
  = Some (match Dict.get k d with Some v' => v' | None => v end).
Proof.
  unfold Dict.setdefault, Dict.mem.
  destruct (Dict.get k d) eqn:E; auto using get_set_eq.
Qed.

Lemma get_setdefault_ne k k' v d :
  k <> k' -> Dict.get k' (Dict.setdefault k v d) = Dict.get k' d.
Proof.
  intros Hne. unfold Dict.setdefault.
  destruct (Dict.mem k d); auto using get_set_ne.
Qed.
End DictFacts.

(** ** One earning line *)

Section EarningLine.
Context {A : Type} `{Amount A}.
Implicit Types (earnings_map category_map : gmap string string)
  (result : FiscalYearEarnings A) (e : earning A).

Lemma zero_or_null_amount_is_ignored_aux earnings_map category_map result e :
  (e_amount e = None \/ exists a, e_amount e = Some a /\ eq_zero a = true) ->
  process_earning earnings_map category_map result e = result.
Proof.
  unfold process_earning. intros [-> | (a & -> & ->)]; reflexivity.
Qed.

(** C8.  An earning line whose amount is null or equal to zero leaves the
    whole accumulator as it was: the gross total, every entry per code and
    every entry per category; in particular no entry is created for its
    code. *)
Theorem zero_or_null_amount_is_ignored earnings_map category_map result e :
  (e_amount e = None \/ exists a, e_amount e = Some a /\ eq_zero a = true) ->
  let result' := process_earning earnings_map category_map result e in
  total_gross_earnings result' = total_gross_earnings result
  /\ earnings_by_type result' = earnings_by_type result
  /\ earnings_by_category result' = earnings_by_category result
  /\ Dict.mem (e_type e) (earnings_by_type result')
     = Dict.mem (e_type e) (earnings_by_type result)
  /\ result' = result.
Proof.
  intros Hzero result'.
  assert (Hsame : result' = result).
  { subst result'. unfold process_earning.
    destruct Hzero as [-> | (a & -> & ->)]; reflexivity. }
  rewrite Hsame. repeat split; reflexivity.
Qed.

Lemma resolve_category_mapped category_map code c :
  category_map !! code = Some c -> resolve_category category_map code = c.
Proof. unfold resolve_category. now intros ->. Qed.

Lemma resolve_category_other category_map code c :
  category_map !! code = None ->
  category_map !! "Other Allowances or Earnings" = Some c ->
  resolve_category category_map code = c.
Proof. unfold resolve_category. now intros -> ->. Qed.

Lemma resolve_category_literal category_map code :
  category_map !! code = None ->
  category_map !! "Other Allowances or Earnings" = None ->
  resolve_category category_map code = "Other Allowances".
Proof. unfold resolve_category. now intros -> ->. Qed.

Lemma process_earning_accepted earnings_map category_map result e a :
  e_amount e = Some a -> eq_zero a = false ->
  process_earning earnings_map category_map result e =
  {| year := year result;
     net_pay := net_pay result;
     total_gross_earnings := aplus (total_gross_earnings result) a;
     earnings_by_type :=
       Dict.alter (add_to_detail a) (e_type e)
         (Dict.setdefault (e_type e)
            {| earning_code := e_type e;
               label := default (e_type e) (earnings_map !! e_type e);
               amount := azero |}
            (earnings_by_type result));
     earnings_by_category :=
       Dict.alter (fun v => aplus v a)
         (resolve_category category_map (e_type e))
         (Dict.setdefault (resolve_category category_map (e_type e)) azero
            (earnings_by_category result)) |}.
Proof. unfold process_earning. now intros -> ->. Qed.

(** C7.  The category of an accepted earning line is the mapping's entry
    for its code if there is one, else the mapping's entry for the key
    "Other Allowances or Earnings" if there is one, else the string
    "Other Allowances"; the amount is added under that category (starting
    from zero when the category is new) and under no other. *)
Theorem category_fallback_chain earnings_map category_map result e a :
  e_amount e = Some a -> eq_zero a = false ->
  let category := resolve_category category_map (e_type e) in
  let before := earnings_by_category result in
  let after :=
    earnings_by_category
      (process_earning earnings_map category_map result e) in
  category =
    match category_map !! e_type e with
    | Some c => c
    | None =>
        match category_map !! "Other Allowances or Earnings" with
        | Some c => c
        | None => "Other Allowances"
        end
    end
  /\ Dict.get category after
     = Some (aplus (default azero (Dict.get category before)) a)
  /\ forall k, k <> category -> Dict.get k after = Dict.get k before.
Proof.
  intros Ha Hz category before after. subst after.
  rewrite (process_earning_accepted _ _ _ _ _ Ha Hz). cbn.
  fold category. fold before. split; [|split].
  - unfold category, resolve_category.
    destruct (category_map !! e_type e); [reflexivity|].
    destruct (category_map !! "Other Allowances or Earnings"); reflexivity.
  - rewrite get_alter_eq, get_setdefault_eq.
    destruct (Dict.get category before); reflexivity.
  - intros k Hk.
    rewrite get_alter_ne, get_setdefault_ne by congruence. reflexivity.
Qed.
End EarningLine.

(** A zero written as [-0.0] is skipped by the program as it runs, and so
    is a missing amount. *)
Lemma zero_or_null_amount_is_ignored_witness :
  (exists a, Some (-0)%float = Some a /\ eq_zero a = true)
  /\ process_earning sample_category_map sample_category_map
       (empty_earnings 2024) (line "REG" (-0)%float)
     = empty_earnings 2024.
Proof.
  split.
  - exists (-0)%float. split; reflexivity.
  - refine (proj2 (proj2 (proj2 (proj2
              (zero_or_null_amount_is_ignored (A := float)
                 sample_category_map sample_category_map
                 (empty_earnings 2024) (line "REG" (-0)%float) _))))).
    right. exists (-0)%float. split; reflexivity.
Defined.

Lemma category_fallback_chain_witness :
  Dict.get "Overtime"
    (earnings_by_category
       (process_earning ∅ sample_category_map (empty_earnings 2024)
          (line "OT" 200)))
  = Some 200.
Proof.
  assert (Hz : eq_zero (200 : Z) = false) by reflexivity.
  exact (proj1 (proj2 (category_fallback_chain (A := Z) ∅ sample_category_map
           (empty_earnings 2024) (line "OT" 200) 200 eq_refl Hz))).
Defined.

(** ** Invariants of the fetch loop *)

Section LoopInvariant.
Context {A : Type} `{Amount A}.
Variable fromisoformat : string -> option datetime.
Variables earnings_map category_map : gmap string string.
Variable Inv : FiscalYearEarnings A -> Prop.

Hypothesis Inv_earning :
  forall r e, Inv r -> Inv (process_earning earnings_map category_map r e).
Hypothesis Inv_net_pay : forall r x, Inv r -> Inv (add_net_pay r x).

Lemma Inv_earnings es : forall r,
  Inv r -> Inv (fold_left (process_earning earnings_map category_map) es r).
Proof. induction es as [|e es IH]; intros r Hr; cbn; auto. Qed.

Lemma Inv_run flag start_date end_date r x r' :
  Inv r ->
  process_run fromisoformat flag start_date end_date earnings_map
    category_map r x = inr r' ->
  Inv r'.
Proof.
  unfold process_run. intros Hr.
  destruct (run_verdict _ _ _ _ _); intros [= <-]; auto using Inv_earnings.
Qed.

Lemma Inv_results flag start_date end_date runs : forall r r',
  Inv r ->
  process_results fromisoformat flag start_date end_date earnings_map
    category_map runs r = inr r' ->
  Inv r'.
Proof.
  induction runs as [|x runs IH]; intros r r' Hr; cbn.
  - now intros [= <-].
  - destruct (process_run _ _ _ _ _ _ r x) as [e|r1] eqn:E; [discriminate|].
    apply IH. eapply Inv_run; eauto.
Qed.

Lemma Inv_fetch_loop base_url q hdrs flag start_date end_date responses :
  forall cursor r r' reqs,
  Inv r ->
  fetch_loop fromisoformat base_url q hdrs flag start_date end_date
    earnings_map category_map responses cursor r = (Returned r', reqs) ->
  Inv r'.
Proof.
  induction responses as [|resp responses IH]; intros cursor r r' reqs Hr;
    cbn; [discriminate|].
  destruct (negb (status_code resp =? 200)); [discriminate|].
  destruct (process_results _ _ _ _ _ _ (results resp) r) as [e|r1] eqn:E;
    [discriminate|].
  assert (Hr1 : Inv r1) by (eapply Inv_results; eauto).
  destruct (truthy_str (next resp)).
  - destruct (fetch_loop _ _ _ _ _ _ _ _ _ responses (next resp) r1)
      as [o reqs'] eqn:E'.
    intros [= -> <-]. eapply IH; eauto.
  - now intros [= <- <-].
Qed.
End LoopInvariant.

(** ** Net pay, pagination and errors *)

Section FetchLoop.
Context {A : Type} `{Amount A}.
Variable fromisoformat : string -> option datetime.
Variables (base_url : string) (q hdrs : Dict.t string) (flag : bool).
Variables (start_date end_date : datetime).
Variables earnings_map category_map : gmap string string.

#[local] Abbreviation run1 := (process_run fromisoformat flag start_date end_date
                    earnings_map category_map).
#[local] Abbreviation runs_of := (process_results fromisoformat flag start_date end_date
                       earnings_map category_map).
#[local] Abbreviation loop := (fetch_loop fromisoformat base_url q hdrs flag start_date
                    end_date earnings_map category_map).
#[local] Abbreviation kept := (survives fromisoformat flag start_date end_date).

Lemma dt_lt_raises a b e : dt_lt a b = inl e -> e = TypeError.
Proof.
  unfold dt_lt. destruct (tzinfo a), (tzinfo b); congruence.
Qed.

Lemma check_date_filter_escape s_date e_date (x : run A) e :
  check_date_filter fromisoformat s_date e_date x = Escape e -> e = TypeError.
Proof.
  unfold check_date_filter, dt_gt.
  destruct (check_date x) as [| |s]; try discriminate.
  destruct (String.eqb s ""); [discriminate|].
  destruct (fromisoformat (replace_Z s)) as [cd|]; [|discriminate].
  destruct (dt_lt cd s_date) as [e1|[|]] eqn:E1; try discriminate.
  - intros [= <-]. eauto using dt_lt_raises.
  - destruct (dt_lt e_date cd) as [e2|[|]] eqn:E2; try discriminate.
    intros [= <-]. eauto using dt_lt_raises.
Qed.

Lemma net_pay_earnings es : forall r : FiscalYearEarnings A,
  net_pay (fold_left (process_earning earnings_map category_map) es r)
  = net_pay r.
Proof.
  induction es as [|e es IH]; intros r; cbn; auto.
  rewrite IH. unfold process_earning.
  destruct (e_amount e) as [a|]; auto. destruct (eq_zero a); auto.
Qed.

Lemma process_run_skipped r x :
  kept x = false -> forall r', run1 r x = inr r' -> r' = r.
Proof.
  unfold survives, process_run.
  destruct (run_verdict _ _ _ _ _); congruence.
Qed.

Lemma net_pay_run r x r' :
  run1 r x = inr r' ->
  net_pay r' = fold_left aplus (net_pays (List.filter kept [x])) (net_pay r).
Proof.
  unfold survives, process_run. cbn.
  destruct (run_verdict _ _ _ _ _); intros [= <-]; cbn; auto.
  rewrite net_pay_earnings. unfold add_net_pay.
  destruct (run_net_pay x); reflexivity.
Qed.

Lemma net_pays_app (xs ys : list (run A)) :
  net_pays (xs ++ ys) = (net_pays xs ++ net_pays ys)%list.
Proof.
  induction xs as [|x xs IH]; cbn; auto.
  destruct (run_net_pay x); cbn; now rewrite IH.
Qed.

Lemma net_pay_results runs : forall r r',
  runs_of runs r = inr r' ->
  net_pay r' = fold_left aplus (net_pays (List.filter kept runs)) (net_pay r).
Proof.
  induction runs as [|x runs IH]; intros r r'; cbn - [List.filter].
  - now intros [= <-].
  - destruct (run1 r x) as [e|r1] eqn:E; [discriminate|].
    intros Hr'. rewrite (IH _ _ Hr'), (net_pay_run _ _ _ E).
    change (x :: runs) with ([x] ++ runs)%list.
    now rewrite List.filter_app, net_pays_app, fold_left_app.
Qed.

Lemma process_results_app xs ys : forall r,
  runs_of (xs ++ ys)%list r
  = match runs_of xs r with
    | inl e => inl e
    | inr r' => runs_of ys r'
    end.
Proof.
  induction xs as [|x xs IH]; intros r; cbn; auto.
  destruct (run1 r x); auto.
Qed.


Lemma process_results_raises runs : forall r e,
  runs_of runs r = inl e -> e = TypeError.
Proof.
  induction runs as [|x runs IH]; intros r e; cbn; [discriminate|].
  destruct (run1 r x) as [e'|r1] eqn:E; [|now apply IH].
  intros [= <-]. revert E. unfold process_run, run_verdict.
  destruct flag; [|discriminate].
  destruct (check_date_filter _ _ _ x) as [| |e0] eqn:Ev; try discriminate.
  intros [= <-]. eapply check_date_filter_escape; eauto.
Qed.

(** The loop over a script that begins with the pages [pre] and [last],
    where every page of [pre] names a next page and [last] does not. *)
Lemma fetch_loop_pages pre last rest : forall cursor r r' reqs,
  Forall has_next pre -> ~ has_next last ->
  loop (pre ++ last :: rest)%list cursor r = (Returned r', reqs) ->
  runs_of (all_runs (pre ++ [last])) r = inr r'
  /\ reqs = map (build_request base_url q hdrs) (cursor :: map next pre).
Proof.
  unfold has_next.
  induction pre as [|p pre IH]; intros cursor r r' reqs Hpre Hlast; cbn.
  - destruct (negb (status_code last =? 200)); [discriminate|].
    unfold all_runs. cbn. rewrite app_nil_r.
    destruct (runs_of (results last) r) as [e|r1]; [discriminate|].
    destruct (truthy_str (next last)); [congruence|].
    now intros [= <- <-].
  - inversion Hpre as [|? ? Hp Hpre']; subst.
    destruct (negb (status_code p =? 200)); [discriminate|].
    unfold all_runs. cbn. rewrite process_results_app.
    destruct (runs_of (results p) r) as [e|r1]; [discriminate|].
    rewrite Hp.
    destruct (loop (pre ++ last :: rest)%list (next p) r1) as [o reqs'] eqn:E.
    intros [= -> <-].
    destruct (IH _ _ _ _ Hpre' Hlast E) as [Hr Hq]. split; [exact Hr|].
    now rewrite Hq.
Qed.



Lemma fetch_loop_api_error responses : forall cursor r msg,
  fst (loop responses cursor r) = Raised (Exception msg) ->
  exists (k : nat) resp,
    responses !! k = Some resp
    /\ (k < length (snd (loop responses cursor r)))%nat
    /\ status_code resp <> 200
    /\ msg = api_error_message resp.
Proof.
  induction responses as [|resp responses IH]; intros cursor r msg; cbn;
    [discriminate|].
  destruct (status_code resp =? 200) eqn:E200; cbn.
  - destruct (runs_of (results resp) r) as [e|r1] eqn:E; cbn.
    + intros [= ->]. apply process_results_raises in E. discriminate.
    + destruct (truthy_str (next resp)); cbn; [|discriminate].
      destruct (loop responses (next resp) r1) as [o reqs] eqn:E'. cbn.
      intros Ho. specialize (IH (next resp) r1 msg).
      rewrite E' in IH. cbn in IH.
      destruct (IH Ho) as (k & resp' & Hk & Hlen & Hs & Hm).
      exists (S k), resp'.
      split; [exact Hk|]. split; [cbn; lia|]. split; assumption.
  - intros [= <-]. exists 0%nat, resp.
    split; [reflexivity|]. split; [cbn; lia|].
    split; [apply Z.eqb_neq; exact E200|reflexivity].
Qed.

Lemma fetch_loop_not_200 responses : forall cursor r (k : nat) resp,
  responses !! k = Some resp ->
  (k < length (snd (loop responses cursor r)))%nat ->
  status_code resp <> 200 ->
  fst (loop responses cursor r) = Raised (Exception (api_error_message resp)).
Proof.
  induction responses as [|p responses IH]; intros cursor r k resp; cbn;
    [discriminate|].
  destruct k as [|k]; cbn.
  - intros [= ->] _ Hs. apply Z.eqb_neq in Hs. now rewrite Hs.
  - intros Hk. destruct (negb (status_code p =? 200)); cbn; [lia|].
    destruct (runs_of (results p) r) as [e|r1]; cbn; [lia|].
    destruct (truthy_str (next p)); cbn; [|lia].
    specialize (IH (next p) r1 k resp Hk).
    destruct (loop responses (next p) r1) as [o reqs]. cbn in *.
    intros Hlen. apply IH. lia.
Qed.
End FetchLoop.

Section PeriodFetch.
Context {A : Type} `{Amount A}.
Variable fromisoformat : string -> option datetime.
Variables (base_url employee_id : string) (start_date end_date : datetime).
Variables (y : Z) (merge_api_key merge_account_token : string).
Variables earnings_map category_map : gmap string string.

#[local] Abbreviation fetch := (fun responses flag =>
  _fetch_payroll_runs_for_period fromisoformat responses base_url employee_id
    start_date end_date y merge_api_key merge_account_token earnings_map
    category_map flag).




(** C4.  With the check-date filter on, the net pay of a returned result
    is the sum, in page order and starting from zero, of the net-pay fields
    that are present on the runs that pass the filter, over the pages read
    (every page up to and including the first one without a next cursor);
    a run that the filter excludes leaves the accumulator, and with it the
    net pay, untouched. *)
Theorem net_pay_sums_surviving_runs pre last rest r reqs :
  Forall has_next pre -> ~ has_next last ->
  fetch (pre ++ last :: rest)%list true = (Returned r, reqs) ->
  net_pay r
  = sum_amounts
      (net_pays
         (List.filter (survives fromisoformat true start_date end_date)
            (all_runs (pre ++ [last]))))
  /\ forall x acc acc',
       survives fromisoformat true start_date end_date x = false ->
       process_run fromisoformat true start_date end_date earnings_map
         category_map acc x = inr acc' ->
       acc' = acc.
Proof.
  intros Hpre Hlast Hf. split.
  - destruct (fetch_loop_pages _ _ _ _ _ _ _ _ _ _ _ _ _ _ _ _ Hpre Hlast Hf)
      as [Hr _].
    now rewrite (net_pay_results _ _ _ _ _ _ _ _ _ Hr).
  - intros x acc acc' Hx Hrun. eapply process_run_skipped; eauto.
Qed.

(** C5, amended.  A period fetch raises the exception whose message carries
    a status code and a body exactly when one of the requests it made was
    answered with a status code other than 200, and the message is built
    from that response; a fetch that raised has returned no result. *)
Theorem api_error_iff_status_not_200 responses flag :
  (forall msg,
     fst (fetch responses flag) = Raised (Exception msg)
     <-> exists (k : nat) resp,
           responses !! k = Some resp
           /\ (k < length (snd (fetch responses flag)))%nat
           /\ status_code resp <> 200
           /\ msg = api_error_message resp
           /\ api_error_message resp
              = "Merge API error " ++ pretty (status_code resp) ++ ": "
                ++ text resp)
  /\ forall e r,
       fst (fetch responses flag) = Raised e ->
       fst (fetch responses flag) <> Returned r.
Proof.
  split.
  - intros msg. split.
    + intros Hraised.
      destruct (fetch_loop_api_error _ _ _ _ _ _ _ _ _ _ _ _ _ Hraised)
        as (k & resp & Hk & Hlen & Hs & Hm).
      exists k, resp. repeat (split; [assumption|]). reflexivity.
    + intros (k & resp & Hk & Hlen & Hs & -> & _).
      exact (fetch_loop_not_200 _ _ _ _ _ _ _ _ _ _ _ _ _ _ Hk Hlen Hs).
  - intros e r ->. discriminate.
Qed.


End PeriodFetch.

(** The sample pages hold runs dated the day before the window, on its first
    day, inside it, on its last day and the day after, and runs without a
    usable date; the net pay counts the three runs in the window. *)
Lemma net_pay_sums_surviving_runs_witness :
  exists r reqs,
    sample_fetch dated_pages true = (Returned r, reqs)
    /\ net_pay r = 20 + 50000 + 7000000
    /\ net_pay r
       = sum_amounts
           (net_pays
              (List.filter
                 (survives sample_fromisoformat true sample_start sample_end)
                 (all_runs dated_pages))).
Proof.
  eexists _, _. split; [vm_compute; reflexivity|]. split; [reflexivity|].
  refine (proj1 (net_pay_sums_surviving_runs (A := Z) sample_fromisoformat
            "https://api.merge.dev/api/hris/v1/employee-payroll-runs"
            "63ba045d-a1dc-465f-a5ba-798c1d333278" sample_start sample_end
            2025 "key" "token" ∅ sample_category_map
            (firstn 1 dated_pages) (nth 1 dated_pages (page [] None)) []
            _ _ _ _ _)).
  - repeat constructor.
  - unfold has_next. cbn. discriminate.
  - vm_compute. reflexivity.
Defined.

(** C5 as stated fails: a response with status 204 is a 2xx response, and
    the fetch raises on it. *)
Lemma status_204_raises :
  Forall (fun p : response Z => 200 <= status_code p < 300) no_content_pages
  /\ fst (sample_fetch no_content_pages false)
     = Raised (Exception "Merge API error 204: No Content").
Proof.
  split.
  - repeat constructor; cbn; lia.
  - vm_compute. reflexivity.
Qed.



(** ** The check-date filter *)

Ltac dt_cases :=
  unfold window, dt_eq, dt_gt, dt_lt in *;
  repeat match goal with
         | |- context [tzinfo ?t] => destruct (tzinfo t)
         | H : context [tzinfo ?t] |- _ => destruct (tzinfo t)
         end;
  try discriminate;
  repeat match goal with
         | H : inr _ = inr _ |- _ => injection H as H
         | H : (_ =? _) = true |- _ => apply Z.eqb_eq in H
         | H : (_ <? _) = true |- _ => apply Z.ltb_lt in H
         | H : (_ <? _) = false |- _ => apply Z.ltb_ge in H
         end.

Section CheckDate.
Context {A : Type} `{Amount A}.
Variable fromisoformat : string -> option datetime.
Variables start_date end_date : datetime.
Variables earnings_map category_map : gmap string string.

#[local] Abbreviation filtered := (process_run fromisoformat true start_date
                                     end_date earnings_map category_map).

Lemma equal_to_start_is_kept cd :
  window start_date end_date -> dt_eq cd start_date = true ->
  dt_lt cd start_date = inr false /\ dt_gt cd end_date = inr false.
Proof.
  intros Hw He. dt_cases; split; f_equal; apply Z.ltb_ge; lia.
Qed.

Lemma equal_to_end_is_kept cd :
  window start_date end_date -> dt_eq cd end_date = true ->
  dt_lt cd start_date = inr false /\ dt_gt cd end_date = inr false.
Proof.
  intros Hw He. dt_cases; split; f_equal; apply Z.ltb_ge; lia.
Qed.

Lemma filter_without_date (r : run A) :
  parsed_check_date fromisoformat r = None ->
  check_date_filter fromisoformat start_date end_date r = Skip.
Proof.
  unfold parsed_check_date, check_date_filter.
  destruct (check_date r) as [| |s]; auto.
  destruct (String.eqb s ""); auto. now intros ->.
Qed.

Lemma filter_with_date (r : run A) cd :
  parsed_check_date fromisoformat r = Some cd ->
  check_date_filter fromisoformat start_date end_date r
  = match dt_lt cd start_date with
    | inl e => Escape e
    | inr true => Skip
    | inr false =>
        match dt_gt cd end_date with
        | inl e => Escape e
        | inr true => Skip
        | inr false => Keep
        end
    end.
Proof.
  unfold parsed_check_date, check_date_filter.
  destruct (check_date r) as [| |s]; try discriminate.
  destruct (String.eqb s ""); [discriminate|]. now intros ->.
Qed.

Variables so eo : Z.
Hypothesis start_aware : tzinfo start_date = Some so.
Hypothesis end_aware : tzinfo end_date = Some eo.

(** X6.  With the check-date filter on and window bounds that carry a UTC
    offset, what happens to a run is decided by its check-date field alone.
    A field that is absent, is not a string, is empty or is rejected by the
    parser: the run is skipped, and the rest of the page is processed as if
    the run were not there.  A check date with a UTC offset: the run is
    skipped exactly when its instant is strictly before the start or strictly
    after the end of the window, so that a check date equal to the start or
    to the end is included.  A check date without UTC offset: processing the
    run raises [TypeError]. *)
Theorem check_date_filter_on_aware_dates (r : run A)
    (acc : FiscalYearEarnings A) :
  match parsed_check_date fromisoformat r with
  | None => filtered acc r = inr acc
  | Some cd =>
      match tzinfo cd with
      | Some o =>
          filtered acc r
          = inr (if (wall_micros cd - o <? wall_micros start_date - so)
                    || (wall_micros end_date - eo <? wall_micros cd - o)
                 then acc
                 else included earnings_map category_map acc r)
      | None => filtered acc r = inl TypeError
      end
  end
  /\ (forall cd,
        parsed_check_date fromisoformat r = Some cd ->
        window start_date end_date ->
        dt_eq cd start_date = true \/ dt_eq cd end_date = true ->
        filtered acc r = inr (included earnings_map category_map acc r))
  /\ (parsed_check_date fromisoformat r = None ->
      forall before after acc0,
        process_results fromisoformat true start_date end_date earnings_map
          category_map (before ++ r :: after)%list acc0
        = process_results fromisoformat true start_date end_date earnings_map
            category_map (before ++ after)%list acc0).
Proof.
  assert (Hnone : forall acc1, parsed_check_date fromisoformat r = None ->
                    filtered acc1 r = inr acc1).
  { intros acc1 Hn. unfold process_run, run_verdict.
    now rewrite (filter_without_date r Hn). }
  split; [|split].
  - destruct (parsed_check_date fromisoformat r) as [cd|] eqn:Hcd;
      [|now apply Hnone].
    unfold process_run, run_verdict. rewrite (filter_with_date r cd Hcd).
    unfold dt_gt, dt_lt. rewrite start_aware, end_aware.
    destruct (tzinfo cd) as [o|]; [|reflexivity].
    destruct (wall_micros cd - o <? wall_micros start_date - so);
      [reflexivity|].
    now destruct (wall_micros end_date - eo <? wall_micros cd - o).
  - intros cd Hcd Hw He. unfold process_run, run_verdict.
    rewrite (filter_with_date r cd Hcd). destruct He as [He | He].
    + destruct (equal_to_start_is_kept cd Hw He) as [-> ->]. reflexivity.
    + destruct (equal_to_end_is_kept cd Hw He) as [-> ->]. reflexivity.
  - intros Hn before after acc0. rewrite !process_results_app.
    destruct (process_results _ _ _ _ _ _ before acc0) as [e|acc1]; auto.
    cbn [process_results]. now rewrite (Hnone acc1 Hn).
Qed.
End CheckDate.

(** In the sample window 2024-03-01..2025-02-28: a run dated on the first
    day is included, a run dated the day before is excluded, a run whose
    field does not parse is excluded, and a run dated without UTC offset
    makes the processing raise. *)
Lemma check_date_filter_on_aware_dates_witness :
  process_run sample_fromisoformat true sample_start sample_end ∅
    sample_category_map (empty_earnings 2025)
    (dated_run (CdString "2024-03-01T00:00:00Z") 20)
  = inr (included ∅ sample_category_map (empty_earnings 2025)
           (dated_run (CdString "2024-03-01T00:00:00Z") 20))
  /\ process_run sample_fromisoformat true sample_start sample_end ∅
       sample_category_map (empty_earnings 2025)
       (dated_run (CdString "2024-02-29T00:00:00Z") 1)
     = inr (empty_earnings 2025)
  /\ process_run sample_fromisoformat true sample_start sample_end ∅
       sample_category_map (empty_earnings 2025)
       (dated_run (CdString "not a date") 300)
     = inr (empty_earnings 2025)
  /\ process_run sample_fromisoformat true sample_start sample_end ∅
       sample_category_map (empty_earnings 2025)
       (dated_run (CdString "2024-09-15T00:00:00") 50000)
     = inl TypeError.
Proof.
  split; [|split; [|split]].
  - exact (proj1 (proj2
             (check_date_filter_on_aware_dates (A := Z) sample_fromisoformat
                sample_start sample_end ∅ sample_category_map 0 0
                eq_refl eq_refl
                (dated_run (CdString "2024-03-01T00:00:00Z") 20)
                (empty_earnings 2025)))
             sample_start eq_refl eq_refl (or_introl eq_refl)).
  - exact (proj1
             (check_date_filter_on_aware_dates (A := Z) sample_fromisoformat
                sample_start sample_end ∅ sample_category_map 0 0
                eq_refl eq_refl
                (dated_run (CdString "2024-02-29T00:00:00Z") 1)
                (empty_earnings 2025))).
  - exact (proj1
             (check_date_filter_on_aware_dates (A := Z) sample_fromisoformat
                sample_start sample_end ∅ sample_category_map 0 0
                eq_refl eq_refl
                (dated_run (CdString "not a date") 300)
                (empty_earnings 2025))).
  - exact (proj1
             (check_date_filter_on_aware_dates (A := Z) sample_fromisoformat
                sample_start sample_end ∅ sample_category_map 0 0
                eq_refl eq_refl
                (dated_run (CdString "2024-09-15T00:00:00") 50000)
                (empty_earnings 2025))).
Defined.

(** C3.  The claim fails on the code for a check date without UTC offset.
    The run dated ["2024-02-29"], the day before the start of the window
    2024-03-01..2025-02-28, is not excluded: its date parses, the comparison
    with the offset-aware start raises [TypeError] inside the [try] whose
    handler names [ValueError] and [AttributeError] only, and the whole
    fetch fails, although the page also holds a run inside the window.  The
    same day written with an offset is skipped quietly. *)
Theorem offsetless_check_date_is_fatal :
  (exists cd,
     parsed_check_date dateonly_fromisoformat
       (dated_run (CdString "2024-02-29") 1) = Some cd
     /\ tzinfo cd = None
     /\ wall_micros cd < wall_micros sample_start)
  /\ process_run dateonly_fromisoformat true sample_start sample_end ∅
       sample_category_map (empty_earnings 2025)
       (dated_run (CdString "2024-02-29") 1)
     = inl TypeError
  /\ fst (_fetch_payroll_runs_for_period dateonly_fromisoformat
            offsetless_pages
            "https://api.merge.dev/api/hris/v1/employee-payroll-runs"
            "63ba045d-a1dc-465f-a5ba-798c1d333278" sample_start sample_end
            2025 "key" "token" ∅ sample_category_map true)
     = Raised TypeError
  /\ process_run dateonly_fromisoformat true sample_start sample_end ∅
       sample_category_map (empty_earnings 2025)
       (dated_run (CdString "2024-02-29T00:00:00Z") 1)
     = inr (empty_earnings 2025).
Proof.
  split; [|split; [|split]].
  - eexists. split; [reflexivity|]. split; [reflexivity|]. vm_compute.
    reflexivity.
  - vm_compute. reflexivity.
  - vm_compute. reflexivity.
  - vm_compute. reflexivity.
Qed.

(** ** The mapping loader *)

Section Loader.
Variable json_load : string -> option (gmap string string).
Variable fs : filesystem.

Lemma load_first_missing paths :
  Forall (missing fs) paths -> load_first json_load fs paths = inr ∅.
Proof.
  unfold missing. induction 1 as [|p paths Hp _ IH]; cbn; auto.
  now rewrite Hp.
Qed.

Lemma load_first_found before p after content :
  Forall (missing fs) before -> fs p = Some content ->
  load_first json_load fs (before ++ p :: after)%list
  = match json_load content with
    | Some m => inr m
    | None => inl JSONDecodeError
    end.
Proof.
  unfold missing. intros Hbefore Hp.
  induction Hbefore as [|p0 before Hp0 _ IH]; cbn.
  - now rewrite Hp.
  - now rewrite Hp0.
Qed.

(** C9.  The loader looks at four candidates in order: the file in the
    working directory, in its [payroll] subdirectory, in the module's
    directory and in its [payroll] subdirectory.  When none exists it returns
    the empty mapping and does not raise; otherwise it returns the parsed
    document of the first candidate that exists, and raises when that
    document is not valid JSON, whatever the later candidates hold. *)
Theorem loader_reads_first_existing_candidate (cwd module_dir : path)
    (filename : string) :
  possible_paths cwd module_dir filename
  = [(cwd ++ [filename])%list;
     (cwd ++ ["payroll"; filename])%list;
     (module_dir ++ [filename])%list;
     (module_dir ++ ["payroll"; filename])%list]
  /\ (Forall (missing fs) (possible_paths cwd module_dir filename) ->
      _load_mapping_file json_load fs cwd module_dir filename = inr ∅)
  /\ (forall before p after content,
        possible_paths cwd module_dir filename = (before ++ p :: after)%list ->
        Forall (missing fs) before -> fs p = Some content ->
        (forall m, json_load content = Some m ->
           _load_mapping_file json_load fs cwd module_dir filename = inr m)
        /\ (json_load content = None ->
            _load_mapping_file json_load fs cwd module_dir filename
            = inl JSONDecodeError)).
Proof.
  split; [reflexivity|]. unfold _load_mapping_file. split.
  - apply load_first_missing.
  - intros before p after content -> Hbefore Hp.
    rewrite (load_first_found _ _ _ _ Hbefore Hp).
    split; [intros m ->|intros ->]; reflexivity.
Qed.
End Loader.

(** The earnings map is found at the second candidate; the category map is
    found at the third one and is not JSON; a name with no file gives the
    empty mapping. *)
Lemma loader_reads_first_existing_candidate_witness :
  _load_mapping_file sample_json_load sample_fs ["srv"; "app"]
    ["opt"; "snippets"] "earnings_ukg.json"
  = inr (<["REG" := "Regular"]> (<["OT" := "Overtime"]> ∅))
  /\ _load_mapping_file sample_json_load sample_fs ["srv"; "app"]
       ["opt"; "snippets"] "earnings_to_aon.json"
     = inl JSONDecodeError
  /\ _load_mapping_file sample_json_load sample_fs ["srv"; "app"]
       ["opt"; "snippets"] "nothing.json"
     = inr ∅.
Proof.
  split; [|split].
  - refine (proj1 (proj2 (proj2
              (loader_reads_first_existing_candidate sample_json_load
                 sample_fs ["srv"; "app"] ["opt"; "snippets"]
                 "earnings_ukg.json"))
              [["srv"; "app"; "earnings_ukg.json"]]
              ["srv"; "app"; "payroll"; "earnings_ukg.json"] _
              sample_document eq_refl _ eq_refl) _ eq_refl).
    repeat constructor.
  - refine (proj2 (proj2 (proj2
              (loader_reads_first_existing_candidate sample_json_load
                 sample_fs ["srv"; "app"] ["opt"; "snippets"]
                 "earnings_to_aon.json"))
              [["srv"; "app"; "earnings_to_aon.json"];
               ["srv"; "app"; "payroll"; "earnings_to_aon.json"]]
              ["opt"; "snippets"; "earnings_to_aon.json"] _
              "REG -> Base" eq_refl _ eq_refl) eq_refl).
    repeat constructor.
  - refine (proj1 (proj2
              (loader_reads_first_existing_candidate sample_json_load
                 sample_fs ["srv"; "app"] ["opt"; "snippets"]
                 "nothing.json")) _).
    repeat constructor.
Defined.

(** ** The summary orchestrator *)

Lemma days_in_month_year_before y m d :
  1 <= d <= days_in_month y m -> ~ (m = 2 /\ d = 29) ->
  d <= days_in_month (y - 1) m.
Proof.
  unfold days_in_month. intros Hd Hfeb.
  destruct (Z.eqb_spec m 2) as [->|Hm]; [|lia].
  destruct (is_leap y), (is_leap (y - 1)); lia.
Qed.

Lemma one_year_earlier_defined t :
  valid_datetime t = true -> 1 < dt_year t -> ~ is_feb_29 t ->
  one_year_earlier t
  = inr (midnight_utc (dt_year t - 1) (dt_month t) (dt_day t)).
Proof.
  unfold valid_datetime, one_year_earlier, datetime_new, is_feb_29,
    MINYEAR, MAXYEAR.
  intros Hv Hy Hfeb. rewrite !andb_true_iff in Hv.
  repeat match goal with
         | H : _ /\ _ |- _ => destruct H
         | H : (_ <=? _) = true |- _ => apply Z.leb_le in H
         | H : (_ <? _) = true |- _ => apply Z.ltb_lt in H
         end.
  assert (Hd : dt_day t <= days_in_month (dt_year t - 1) (dt_month t))
    by (apply days_in_month_year_before; auto; lia).
  replace ((1 <=? dt_year t - 1) && (dt_year t - 1 <=? 9999)
           && (1 <=? dt_month t) && (dt_month t <=? 12) && (1 <=? dt_day t)
           && (dt_day t <=? days_in_month (dt_year t - 1) (dt_month t)))
    with true; [reflexivity|].
  symmetry. rewrite !andb_true_iff, !Z.leb_le. lia.
Qed.

Section Summary.
Context {A : Type} `{Amount A}.
Variable fromisoformat : string -> option datetime.
Variable json_load : string -> option (gmap string string).

Lemma year_of_fetch responses base_url employee_id start_date end_date y
    merge_api_key merge_account_token earnings_map category_map flag
    (r : FiscalYearEarnings A) :
  fst (_fetch_payroll_runs_for_period fromisoformat responses base_url
         employee_id start_date end_date y merge_api_key merge_account_token
         earnings_map category_map flag) = Returned r ->
  year r = y.
Proof.
  unfold _fetch_payroll_runs_for_period.
  destruct (fetch_loop _ _ _ _ _ _ _ _ _ _ _ _) as [o reqs] eqn:E. cbn.
  intros ->.
  eapply (Inv_fetch_loop fromisoformat earnings_map category_map
            (fun r => year r = y)).
  4: exact E.
  - intros r0 e <-. unfold process_earning.
    destruct (e_amount e) as [a|]; auto. destruct (eq_zero a); auto.
  - intros r0 x <-. unfold add_net_pay. destruct (run_net_pay x); auto.
  - reflexivity.
Qed.

(** What a summary that was returned is made of. *)
Lemma summary_returned w employee_id current_fy_start current_fy_end region
    flag earnings_map_file category_map_file (s : SummaryResult A) :
  summarize_employee_payroll_runs fromisoformat json_load w employee_id
    current_fy_start current_fy_end region flag earnings_map_file
    category_map_file = Returned s ->
  exists this_fy_start this_fy_end last_fy_start last_fy_end
         this_fy_data last_fy_data,
    this_fy_start_of w current_fy_start = inr this_fy_start
    /\ this_fy_end_of w current_fy_end = inr this_fy_end
    /\ one_year_earlier this_fy_start = inr last_fy_start
    /\ one_year_earlier this_fy_end = inr last_fy_end
    /\ year this_fy_data = dt_year this_fy_end
    /\ year last_fy_data = dt_year last_fy_end
    /\ s = {| current_fy := to_result this_fy_start this_fy_end this_fy_data;
              last_fy := to_result last_fy_start last_fy_end last_fy_data |}.
Proof.
  unfold summarize_employee_payroll_runs.
  destruct (Dict.get region HOSTS) as [host|]; [|discriminate].
  destruct (this_fy_start_of w current_fy_start) as [?|t1] eqn:S1;
    [discriminate|].
  destruct (this_fy_end_of w current_fy_end) as [?|t2] eqn:S2;
    [discriminate|].
  destruct (one_year_earlier t1) as [?|l1] eqn:L1; [discriminate|].
  destruct (one_year_earlier t2) as [?|l2] eqn:L2; [discriminate|].
  destruct (_load_mapping_file _ _ _ _ earnings_map_file) as [?|em];
    [discriminate|].
  destruct (_load_mapping_file _ _ _ _ category_map_file) as [?|cm];
    [discriminate|].
  match goal with
  | |- context [gather (fst ?a) (fst ?b)] =>
      destruct (fst a) as [d1| |] eqn:E1; destruct (fst b) as [d2| |] eqn:E2;
      cbn; try discriminate
  end.
  intros [= <-]. exists t1, t2, l1, l2, d1, d2.
  do 4 (split; [reflexivity || assumption|]).
  split; [eapply year_of_fetch; exact E1|].
  split; [eapply year_of_fetch; exact E2|reflexivity].
Qed.

(** X15.  For a current window whose start and end are valid dates after
    year 1 and neither of which is February 29, the prior window is built
    without error, starts and ends at midnight UTC of the same month and day
    one year earlier, and these are the dates that a returned summary
    reports for the last fiscal year. *)
Theorem prior_window_is_one_year_earlier w employee_id this_fy_start
    this_fy_end region flag earnings_map_file category_map_file :
  valid_datetime this_fy_start = true -> valid_datetime this_fy_end = true ->
  1 < dt_year this_fy_start -> 1 < dt_year this_fy_end ->
  ~ is_feb_29 this_fy_start -> ~ is_feb_29 this_fy_end ->
  let last_fy_start :=
    midnight_utc (dt_year this_fy_start - 1) (dt_month this_fy_start)
      (dt_day this_fy_start) in
  let last_fy_end :=
    midnight_utc (dt_year this_fy_end - 1) (dt_month this_fy_end)
      (dt_day this_fy_end) in
  one_year_earlier this_fy_start = inr last_fy_start
  /\ one_year_earlier this_fy_end = inr last_fy_end
  /\ forall s : SummaryResult A,
       summarize_employee_payroll_runs fromisoformat json_load w employee_id
         (Some this_fy_start) (Some this_fy_end) region flag
         earnings_map_file category_map_file = Returned s ->
       start_date (last_fy s) = strftime_ymd last_fy_start
       /\ end_date (last_fy s) = strftime_ymd last_fy_end.
Proof.
  intros Hv1 Hv2 Hy1 Hy2 Hf1 Hf2 last_fy_start last_fy_end.
  pose proof (one_year_earlier_defined _ Hv1 Hy1 Hf1) as H1.
  pose proof (one_year_earlier_defined _ Hv2 Hy2 Hf2) as H2.
  split; [exact H1|]. split; [exact H2|].
  intros s Hs.
  destruct (summary_returned _ _ _ _ _ _ _ _ _ Hs)
    as (t1 & t2 & l1 & l2 & d1 & d2 & E1 & E2 & E3 & E4 & _ & _ & ->).
  cbn in E1, E2. injection E1 as <-. injection E2 as <-.
  rewrite H1 in E3. rewrite H2 in E4.
  injection E3 as <-. injection E4 as <-. split; reflexivity.
Qed.

(** C10.  In a returned summary the year of the current fiscal year is the
    calendar year of the current window's end date, and the year of the last
    fiscal year is the calendar year of the prior window's end date, that is
    one less. *)
Theorem year_label_is_year_of_end_date w employee_id current_fy_start
    current_fy_end region flag earnings_map_file category_map_file
    (s : SummaryResult A) :
  summarize_employee_payroll_runs fromisoformat json_load w employee_id
    current_fy_start current_fy_end region flag earnings_map_file
    category_map_file = Returned s ->
  exists this_fy_end last_fy_end,
    this_fy_end_of w current_fy_end = inr this_fy_end
    /\ one_year_earlier this_fy_end = inr last_fy_end
    /\ end_date (current_fy s) = strftime_ymd this_fy_end
    /\ fy_year (current_fy s) = dt_year this_fy_end
    /\ end_date (last_fy s) = strftime_ymd last_fy_end
    /\ fy_year (last_fy s) = dt_year last_fy_end
    /\ dt_year last_fy_end = dt_year this_fy_end - 1.
Proof.
  intros Hs.
  destruct (summary_returned _ _ _ _ _ _ _ _ _ Hs)
    as (t1 & t2 & l1 & l2 & d1 & d2 & E1 & E2 & E3 & E4 & Y1 & Y2 & ->).
  exists t2, l2. cbn. repeat (split; [assumption || reflexivity|]).
  revert E4. unfold one_year_earlier, datetime_new.
  destruct (_ && _); [|discriminate]. now intros [= <-].
Qed.
End Summary.

(** The window 2024-03-01..2025-02-28 has the prior window
    2023-03-01..2024-02-28. *)
Lemma prior_window_is_one_year_earlier_witness :
  exists s,
    sample_summary (midnight_utc 2024 3 1) (midnight_utc 2025 2 28)
    = Returned s
    /\ start_date (current_fy s) = "2024-03-01"
    /\ end_date (current_fy s) = "2025-02-28"
    /\ start_date (last_fy s) = "2023-03-01"
    /\ end_date (last_fy s) = "2024-02-28".
Proof.
  eexists. split; [vm_compute; reflexivity|].
  split; [reflexivity|]. split; [reflexivity|].
  refine (proj2 (proj2
            (prior_window_is_one_year_earlier (A := Z) sample_fromisoformat
               sample_json_load sample_world
               "63ba045d-a1dc-465f-a5ba-798c1d333278"
               (midnight_utc 2024 3 1) (midnight_utc 2025 2 28) "US" false
               "earnings_ukg.json" "earnings_to_aon.json"
               eq_refl eq_refl _ _ _ _)) _ _).
  - reflexivity.
  - reflexivity.
  - unfold is_feb_29. cbn. lia.
  - unfold is_feb_29. cbn. lia.
  - vm_compute. reflexivity.
Defined.

(** C2.  The claim fails on the code at a February 29.  2024-02-29 is a
    valid start of a current window and a valid end of another one; the
    orchestrator builds the prior date from the year before and the same
    month and day, there is no February 29 in 2023, the constructor raises
    [ValueError], nothing handles it and no summary is returned. *)
Theorem feb_29_has_no_prior_window :
  valid_datetime (midnight_utc 2024 2 29) = true
  /\ one_year_earlier (midnight_utc 2024 2 29) = inl ValueError
  /\ sample_summary (midnight_utc 2024 2 29) (midnight_utc 2025 2 28)
     = Raised ValueError
  /\ sample_summary (midnight_utc 2023 3 1) (midnight_utc 2024 2 29)
     = Raised ValueError.
Proof. repeat split; vm_compute; reflexivity. Qed.

(** The window 2016-07-01..2017-06-30 is labelled 2017, the window before
    it 2016. *)
Lemma year_label_is_year_of_end_date_witness :
  exists s,
    sample_summary (midnight_utc 2016 7 1) (midnight_utc 2017 6 30)
    = Returned s
    /\ fy_year (current_fy s) = 2017
    /\ fy_year (last_fy s) = 2016
    /\ exists this_fy_end last_fy_end,
         this_fy_end_of sample_world (Some (midnight_utc 2017 6 30))
         = inr this_fy_end
         /\ one_year_earlier this_fy_end = inr last_fy_end
         /\ end_date (current_fy s) = strftime_ymd this_fy_end
         /\ fy_year (current_fy s) = dt_year this_fy_end
         /\ end_date (last_fy s) = strftime_ymd last_fy_end
         /\ fy_year (last_fy s) = dt_year last_fy_end
         /\ dt_year last_fy_end = dt_year this_fy_end - 1.
Proof.
  eexists. split; [vm_compute; reflexivity|].
  split; [reflexivity|]. split; [reflexivity|].
  apply (year_label_is_year_of_end_date (A := Z) sample_fromisoformat
           sample_json_load sample_world
           "63ba045d-a1dc-465f-a5ba-798c1d333278"
           (Some (midnight_utc 2016 7 1)) (Some (midnight_utc 2017 6 30))
           "US" false "earnings_ukg.json" "earnings_to_aon.json").
  vm_compute. reflexivity.
Defined.

(** * Further properties of the period fetcher *)

Section EarningsFold.
Context {A : Type} `{Amount A}.
Variables earnings_map category_map : gmap string string.

#[local] Abbreviation pe := (process_earning earnings_map category_map).

Lemma process_earning_with_net_pay n (r : FiscalYearEarnings A) e :
  pe (with_net_pay n r) e = with_net_pay n (pe r e).
Proof.
  unfold process_earning, with_net_pay. cbn.
  destruct (e_amount e) as [a|]; auto. destruct (eq_zero a); auto.
Qed.

Lemma fold_with_net_pay n es : forall r : FiscalYearEarnings A,
  fold_left pe es (with_net_pay n r) = with_net_pay n (fold_left pe es r).
Proof.
  induction es as [|e es IH]; intros r; cbn; auto.
  now rewrite process_earning_with_net_pay, IH.
Qed.

Lemma with_net_pay_add_net_pay n (r : FiscalYearEarnings A) x :
  with_net_pay n (add_net_pay r x) = with_net_pay n r.
Proof. unfold add_net_pay. destruct (run_net_pay x); reflexivity. Qed.

Lemma total_of_fold es : forall r : FiscalYearEarnings A,
  total_gross_earnings (fold_left pe es r)
  = fold_left aplus (accepted_amounts es) (total_gross_earnings r).
Proof.
  induction es as [|e es IH]; intros r; cbn; auto.
  rewrite IH. unfold process_earning.
  destruct (e_amount e) as [a|]; auto. destruct (eq_zero a); auto.
Qed.

Lemma code_amount_step code (r : FiscalYearEarnings A) e :
  code_amount code (pe r e)
  = match e_amount e with
    | Some a =>
        if eq_zero a then code_amount code r
        else if String.eqb (e_type e) code then aplus (code_amount code r) a
        else code_amount code r
    | None => code_amount code r
    end.
Proof.
  destruct (e_amount e) as [a|] eqn:Ha; [destruct (eq_zero a) eqn:Hz|];
    try (rewrite zero_or_null_amount_is_ignored_aux; eauto; fail).
  rewrite (process_earning_accepted _ _ _ _ _ Ha Hz).
  unfold code_amount. cbn.
  destruct (String.eqb_spec (e_type e) code) as [Hc|Hc].
  - rewrite Hc, get_alter_eq, get_setdefault_eq.
    destruct (Dict.get code (earnings_by_type r)); reflexivity.
  - now rewrite get_alter_ne, get_setdefault_ne by exact Hc.
Qed.

Lemma code_amount_of_fold code es : forall r : FiscalYearEarnings A,
  code_amount code (fold_left pe es r)
  = fold_left aplus (accepted_amounts (with_code code es))
      (code_amount code r).
Proof.
  induction es as [|e es IH]; intros r; [reflexivity|].
  cbn [fold_left]. rewrite IH, code_amount_step.
  unfold with_code. cbn [List.filter].
  destruct (String.eqb (e_type e) code); cbn [accepted_amounts];
    destruct (e_amount e) as [a|]; try reflexivity;
    destruct (eq_zero a); reflexivity.
Qed.

Lemma category_amount_step category (r : FiscalYearEarnings A) e :
  category_amount category (pe r e)
  = match e_amount e with
    | Some a =>
        if eq_zero a then category_amount category r
        else if String.eqb (resolve_category category_map (e_type e)) category
        then aplus (category_amount category r) a
        else category_amount category r
    | None => category_amount category r
    end.
Proof.
  destruct (e_amount e) as [a|] eqn:Ha; [destruct (eq_zero a) eqn:Hz|];
    try (rewrite zero_or_null_amount_is_ignored_aux; eauto; fail).
  rewrite (process_earning_accepted _ _ _ _ _ Ha Hz).
  unfold category_amount. cbn.
  destruct (String.eqb_spec (resolve_category category_map (e_type e))
              category) as [Hc|Hc].
  - rewrite Hc, get_alter_eq, get_setdefault_eq.
    destruct (Dict.get category (earnings_by_category r)); reflexivity.
  - now rewrite get_alter_ne, get_setdefault_ne by exact Hc.
Qed.

Lemma category_amount_of_fold category es :
  forall r : FiscalYearEarnings A,
  category_amount category (fold_left pe es r)
  = fold_left aplus (accepted_amounts (in_category category_map category es))
      (category_amount category r).
Proof.
  induction es as [|e es IH]; intros r; [reflexivity|].
  cbn [fold_left]. rewrite IH, category_amount_step.
  unfold in_category. cbn [List.filter].
  destruct (String.eqb (resolve_category category_map (e_type e)) category);
    cbn [accepted_amounts];
    destruct (e_amount e) as [a|]; try reflexivity;
    destruct (eq_zero a); reflexivity.
Qed.

(** Whether a code has an entry. *)
Lemma code_mem_step code (r : FiscalYearEarnings A) e :
  Dict.mem code (earnings_by_type (pe r e))
  = Dict.mem code (earnings_by_type r)
    || (accepted e && String.eqb (e_type e) code).
Proof.
  unfold accepted.
  destruct (e_amount e) as [a|] eqn:Ha; [destruct (eq_zero a) eqn:Hz|];
    try (rewrite zero_or_null_amount_is_ignored_aux; eauto;
         cbn; now rewrite orb_false_r).
  rewrite (process_earning_accepted _ _ _ _ _ Ha Hz).
  unfold Dict.mem. cbn.
  destruct (String.eqb_spec (e_type e) code) as [Hc|Hc].
  - rewrite Hc, get_alter_eq, get_setdefault_eq. cbn. now rewrite orb_true_r.
  - rewrite get_alter_ne, get_setdefault_ne by exact Hc.
    now rewrite orb_false_r.
Qed.

Lemma code_mem_of_fold code es : forall r : FiscalYearEarnings A,
  Dict.mem code (earnings_by_type (fold_left pe es r))
  = Dict.mem code (earnings_by_type r)
    || existsb accepted (with_code code es).
Proof.
  induction es as [|e es IH]; intros r; cbn [fold_left].
  - cbn. now rewrite orb_false_r.
  - rewrite IH, code_mem_step. unfold with_code. cbn [List.filter].
    destruct (String.eqb (e_type e) code); cbn [existsb].
    + now rewrite andb_true_r, orb_assoc.
    + now rewrite andb_false_r, orb_false_r.
Qed.

Lemma category_mem_step category (r : FiscalYearEarnings A) e :
  Dict.mem category (earnings_by_category (pe r e))
  = Dict.mem category (earnings_by_category r)
    || (accepted e
        && String.eqb (resolve_category category_map (e_type e)) category).
Proof.
  unfold accepted.
  destruct (e_amount e) as [a|] eqn:Ha; [destruct (eq_zero a) eqn:Hz|];
    try (rewrite zero_or_null_amount_is_ignored_aux; eauto;
         cbn; now rewrite orb_false_r).
  rewrite (process_earning_accepted _ _ _ _ _ Ha Hz).
  unfold Dict.mem. cbn.
  destruct (String.eqb_spec (resolve_category category_map (e_type e))
              category) as [Hc|Hc].
  - rewrite Hc, get_alter_eq, get_setdefault_eq. cbn. now rewrite orb_true_r.
  - rewrite get_alter_ne, get_setdefault_ne by exact Hc.
    now rewrite orb_false_r.
Qed.

Lemma category_mem_of_fold category es : forall r : FiscalYearEarnings A,
  Dict.mem category (earnings_by_category (fold_left pe es r))
  = Dict.mem category (earnings_by_category r)
    || existsb accepted (in_category category_map category es).
Proof.
  induction es as [|e es IH]; intros r; cbn [fold_left].
  - cbn. now rewrite orb_false_r.
  - rewrite IH, category_mem_step. unfold in_category. cbn [List.filter].
    destruct (String.eqb (resolve_category category_map (e_type e)) category);
      cbn [existsb].
    + now rewrite andb_true_r, orb_assoc.
    + now rewrite andb_false_r, orb_false_r.
Qed.

Lemma labelled_earning (r : FiscalYearEarnings A) e :
  labelled earnings_map r -> labelled earnings_map (pe r e).
Proof.
  intros Hl.
  destruct (e_amount e) as [a|] eqn:Ha; [destruct (eq_zero a) eqn:Hz|];
    try (rewrite zero_or_null_amount_is_ignored_aux; eauto; fail).
  rewrite (process_earning_accepted _ _ _ _ _ Ha Hz).
  intros code d. cbn.
  destruct (String.eqb_spec (e_type e) code) as [Hc|Hc].
  - rewrite Hc, get_alter_eq, get_setdefault_eq. cbn. intros [= <-]. cbn.
    destruct (Dict.get code (earnings_by_type r)) as [d0|] eqn:E.
    + exact (Hl code d0 E).
    + split; reflexivity.
  - rewrite get_alter_ne, get_setdefault_ne by exact Hc. apply Hl.
Qed.

Lemma categorised_earning (r : FiscalYearEarnings A) e :
  categorised category_map r -> categorised category_map (pe r e).
Proof.
  intros Hl.
  destruct (e_amount e) as [a|] eqn:Ha; [destruct (eq_zero a) eqn:Hz|];
    try (rewrite zero_or_null_amount_is_ignored_aux; eauto; fail).
  rewrite (process_earning_accepted _ _ _ _ _ Ha Hz).
  intros category x. cbn.
  destruct (String.eqb_spec (resolve_category category_map (e_type e))
              category) as [Hc|Hc].
  - intros _. rewrite <- Hc. unfold resolve_category.
    destruct (category_map !! e_type e) as [c|] eqn:E1; cbn; [eauto|].
    destruct (category_map !! "Other Allowances or Earnings") as [c|] eqn:E2;
      cbn; eauto.
  - rewrite get_alter_ne, get_setdefault_ne by exact Hc. apply Hl.
Qed.
End EarningsFold.

Section Aggregates.
Context {A : Type} `{Amount A}.
Variable fromisoformat : string -> option datetime.
Variables (flag : bool) (start_date end_date : datetime).
Variables earnings_map category_map : gmap string string.

#[local] Abbreviation pe' := (process_earning earnings_map category_map).
#[local] Abbreviation kept' := (survives fromisoformat flag start_date end_date).

(** Apart from the net pay, processing a list of runs is folding the
    earning lines of the runs that the filter lets through. *)
Lemma process_results_lines runs : forall (r r' : FiscalYearEarnings A) n,
  process_results fromisoformat flag start_date end_date earnings_map
    category_map runs r = inr r' ->
  with_net_pay n r'
  = fold_left pe' (flat_map earnings (List.filter kept' runs))
      (with_net_pay n r).
Proof.
  induction runs as [|x runs IH]; intros r r' n; cbn - [List.filter].
  - now intros [= <-].
  - destruct (process_run _ _ _ _ _ _ r x) as [e|r1] eqn:E; [discriminate|].
    intros Hr'. rewrite (IH _ _ n Hr').
    revert E. unfold process_run, survives. cbn [List.filter].
    destruct (run_verdict _ _ _ _ x); try discriminate; intros [= <-].
    + reflexivity.
    + cbn [flat_map]. rewrite fold_left_app. f_equal.
      now rewrite <- fold_with_net_pay, with_net_pay_add_net_pay.
Qed.

Lemma labelled_results runs : forall r r' : FiscalYearEarnings A,
  labelled earnings_map r ->
  process_results fromisoformat flag start_date end_date earnings_map
    category_map runs r = inr r' ->
  labelled earnings_map r'.
Proof.
  intros r r'.
  apply (Inv_results fromisoformat earnings_map category_map
           (labelled earnings_map)).
  - intros; now apply labelled_earning.
  - intros r0 x Hl. unfold add_net_pay. now destruct (run_net_pay x).
Qed.

Lemma categorised_results runs : forall r r' : FiscalYearEarnings A,
  categorised category_map r ->
  process_results fromisoformat flag start_date end_date earnings_map
    category_map runs r = inr r' ->
  categorised category_map r'.
Proof.
  intros r r'.
  apply (Inv_results fromisoformat earnings_map category_map
           (categorised category_map)).
  - intros; now apply categorised_earning.
  - intros r0 x Hl. unfold add_net_pay. now destruct (run_net_pay x).
Qed.
End Aggregates.

Section PeriodTotals.
Context {A : Type} `{Amount A}.
Variable fromisoformat : string -> option datetime.
Variables (base_url employee_id : string) (start_date end_date : datetime).
Variables (y : Z) (merge_api_key merge_account_token : string).
Variables earnings_map category_map : gmap string string.
Variable flag : bool.

#[local] Abbreviation fetch' := (fun responses =>
  _fetch_payroll_runs_for_period fromisoformat responses base_url employee_id
    start_date end_date y merge_api_key merge_account_token earnings_map
    category_map flag).
#[local] Abbreviation lines := (fun pages =>
  lines_read fromisoformat flag start_date end_date pages).

Lemma with_own_net_pay (r : FiscalYearEarnings A) :
  with_net_pay (net_pay r) r = r.
Proof. now destruct r. Qed.

(** A returned result is the fold of the lines read into the empty
    accumulator, net pay apart. *)
Lemma fetched_is_fold pre last rest r reqs :
  Forall has_next pre -> ~ has_next last ->
  fetch' (pre ++ last :: rest)%list = (Returned r, reqs) ->
  r = fold_left (process_earning earnings_map category_map)
        (lines (pre ++ [last])%list)
        (with_net_pay (net_pay r) (empty_earnings y)).
Proof.
  intros Hpre Hlast Hf.
  destruct (fetch_loop_pages _ _ _ _ _ _ _ _ _ _ _ _ _ _ _ _ Hpre Hlast Hf)
    as [Hr _].
  rewrite <- (with_own_net_pay r) at 1.
  exact (process_results_lines _ _ _ _ _ _ _ _ _ _ Hr).
Qed.

(** X1.  The gross total of a returned result is the sum, in page order
    and starting from zero, of the amounts of the earning lines that are
    accepted (amount present and not zero) on the runs that pass the filter,
    over the pages read. *)
Theorem gross_total_sums_accepted_amounts pre last rest r reqs :
  Forall has_next pre -> ~ has_next last ->
  fetch' (pre ++ last :: rest)%list = (Returned r, reqs) ->
  total_gross_earnings r
  = sum_amounts (accepted_amounts (lines (pre ++ [last])%list)).
Proof.
  intros Hpre Hlast Hf.
  rewrite (fetched_is_fold _ _ _ _ _ Hpre Hlast Hf) at 1.
  now rewrite total_of_fold.
Qed.

(** X2.  A returned result has an entry for an earning code exactly when
    some accepted line read carries that code; the entry is filed under the
    code, is labelled by the earnings map (by the code itself when the map
    has no entry), and its amount is the sum, in order and from zero, of the
    accepted amounts with that code. *)
Theorem entry_per_code pre last rest r reqs code :
  Forall has_next pre -> ~ has_next last ->
  fetch' (pre ++ last :: rest)%list = (Returned r, reqs) ->
  Dict.get code (earnings_by_type r)
  = if existsb accepted (with_code code (lines (pre ++ [last])%list))
    then Some {| earning_code := code;
                 label := default code (earnings_map !! code);
                 amount := sum_amounts
                             (accepted_amounts
                                (with_code code (lines (pre ++ [last])%list))) |}
    else None.
Proof.
  intros Hpre Hlast Hf.
  pose proof (fetched_is_fold _ _ _ _ _ Hpre Hlast Hf) as Hr.
  set (r0 := with_net_pay (net_pay r) (empty_earnings y)) in *.
  assert (Hmem := code_mem_of_fold earnings_map category_map code
                    (lines (pre ++ [last])%list) r0).
  assert (Hamt := code_amount_of_fold earnings_map category_map code
                    (lines (pre ++ [last])%list) r0).
  assert (Hlab : labelled earnings_map r).
  { rewrite Hr. apply Inv_earnings.
    - intros; now apply labelled_earning.
    - intros c d. discriminate. }
  cbv beta in Hr, Hmem, Hamt. rewrite <- Hr in Hmem, Hamt.
  clear Hr. subst r0. cbn in Hmem, Hamt.
  unfold Dict.mem, code_amount in Hmem, Hamt.
  destruct (existsb accepted _); destruct (Dict.get code (earnings_by_type r))
    as [d|] eqn:E; try discriminate; [|reflexivity].
  destruct (Hlab code d E) as [Hc Hl]. destruct d as [c l a].
  cbn in Hc, Hl, Hamt. now rewrite Hc, Hl, Hamt.
Qed.

(** X3.  A returned result has an entry for a category exactly when some
    accepted line read has that category by the fallback chain, and the
    entry is the sum, in order and from zero, of the accepted amounts of
    these lines. *)
Theorem entry_per_category pre last rest r reqs category :
  Forall has_next pre -> ~ has_next last ->
  fetch' (pre ++ last :: rest)%list = (Returned r, reqs) ->
  Dict.get category (earnings_by_category r)
  = if existsb accepted
         (in_category category_map category (lines (pre ++ [last])%list))
    then Some (sum_amounts
                 (accepted_amounts
                    (in_category category_map category
                       (lines (pre ++ [last])%list))))
    else None.
Proof.
  intros Hpre Hlast Hf.
  pose proof (fetched_is_fold _ _ _ _ _ Hpre Hlast Hf) as Hr.
  set (r0 := with_net_pay (net_pay r) (empty_earnings y)) in *.
  assert (Hmem := category_mem_of_fold earnings_map category_map category
                    (lines (pre ++ [last])%list) r0).
  assert (Hamt := category_amount_of_fold earnings_map category_map category
                    (lines (pre ++ [last])%list) r0).
  cbv beta in Hr, Hmem, Hamt. rewrite <- Hr in Hmem, Hamt.
  clear Hr. subst r0. cbn in Hmem, Hamt.
  unfold Dict.mem, category_amount in Hmem, Hamt.
  destruct (existsb accepted _);
    destruct (Dict.get category (earnings_by_category r)) as [x|] eqn:E;
    try discriminate; [|reflexivity].
  cbn in Hamt. now rewrite Hamt.
Qed.

(** X4.  In a returned result every category that has an entry is a value
    of the category map or the literal "Other Allowances"; so when the
    category map is empty that literal is the only category there can be. *)
Theorem categories_come_from_the_map responses r reqs :
  fetch' responses = (Returned r, reqs) ->
  (forall category x,
     Dict.get category (earnings_by_category r) = Some x ->
     category = "Other Allowances"
     \/ exists code, category_map !! code = Some category)
  /\ (category_map = ∅ ->
      forall category x,
        Dict.get category (earnings_by_category r) = Some x ->
        category = "Other Allowances").
Proof.
  intros Hf.
  assert (Hc : categorised category_map r).
  { eapply (Inv_fetch_loop fromisoformat earnings_map category_map
              (categorised category_map)).
    4: exact Hf.
    - intros; now apply categorised_earning.
    - intros r0 x Hl. unfold add_net_pay. now destruct (run_net_pay x).
    - intros c x. discriminate. }
  split; [exact Hc|].
  intros -> category x Hx. destruct (Hc category x Hx) as [?|[code Hcode]];
    [assumption|].
  rewrite lookup_empty in Hcode. discriminate.
Qed.
End PeriodTotals.

(** The three properties on binary64 amounts: 1000.1 (REG), 500.2 (OT) and
    200.3 (REG) on one page. *)
Lemma gross_total_sums_accepted_amounts_witness :
  exists r reqs,
    sample_fetch float_pages false = (Returned r, reqs)
    /\ total_gross_earnings r
       = sum_amounts
           (accepted_amounts
              (lines_read sample_fromisoformat false sample_start sample_end
                 float_pages)).
Proof.
  eexists _, _. split; [vm_compute; reflexivity|].
  refine (gross_total_sums_accepted_amounts (A := float) sample_fromisoformat
            "https://api.merge.dev/api/hris/v1/employee-payroll-runs"
            "63ba045d-a1dc-465f-a5ba-798c1d333278" sample_start sample_end
            2025 "key" "token" ∅ sample_category_map false
            [] (nth 0 float_pages (page [] None)) [] _ _ _ _ _).
  - constructor.
  - unfold has_next. cbn. discriminate.
  - vm_compute. reflexivity.
Defined.

Lemma entry_per_code_witness :
  exists r reqs,
    sample_fetch float_pages false = (Returned r, reqs)
    /\ Dict.get "REG" (earnings_by_type r)
       = Some {| earning_code := "REG"; label := "REG";
                 amount := 0x1.2c1999999999ap+10%float |}
    /\ Dict.get "BON" (earnings_by_type r) = None.
Proof.
  eexists _, _. split; [vm_compute; reflexivity|]. split.
  - refine (eq_trans
              (entry_per_code (A := float) sample_fromisoformat
                 "https://api.merge.dev/api/hris/v1/employee-payroll-runs"
                 "63ba045d-a1dc-465f-a5ba-798c1d333278" sample_start
                 sample_end 2025 "key" "token" ∅ sample_category_map false
                 [] (nth 0 float_pages (page [] None)) [] _ _ "REG" _ _ _) _).
    + constructor.
    + unfold has_next. cbn. discriminate.
    + vm_compute. reflexivity.
    + vm_compute. reflexivity.
  - refine (eq_trans
              (entry_per_code (A := float) sample_fromisoformat
                 "https://api.merge.dev/api/hris/v1/employee-payroll-runs"
                 "63ba045d-a1dc-465f-a5ba-798c1d333278" sample_start
                 sample_end 2025 "key" "token" ∅ sample_category_map false
                 [] (nth 0 float_pages (page [] None)) [] _ _ "BON" _ _ _) _).
    + constructor.
    + unfold has_next. cbn. discriminate.
    + vm_compute. reflexivity.
    + vm_compute. reflexivity.
Defined.

Lemma entry_per_category_witness :
  exists r reqs,
    sample_fetch exact_pages false = (Returned r, reqs)
    /\ Dict.get "Base" (earnings_by_category r) = Some 1500
    /\ Dict.get "Overtime" (earnings_by_category r) = Some 200
    /\ Dict.get "Other Allowances" (earnings_by_category r) = None.
Proof.
  assert (Hpre : Forall has_next (firstn 1 exact_pages))
    by (repeat constructor).
  assert (Hlast : ~ has_next (nth 1 exact_pages (page [] None)))
    by (unfold has_next; cbn; discriminate).
  eexists _, _. split; [vm_compute; reflexivity|].
  split; [|split];
    refine (eq_trans
              (entry_per_category (A := Z) sample_fromisoformat
                 "https://api.merge.dev/api/hris/v1/employee-payroll-runs"
                 "63ba045d-a1dc-465f-a5ba-798c1d333278" sample_start
                 sample_end 2025 "key" "token" ∅ sample_category_map false
                 (firstn 1 exact_pages) (nth 1 exact_pages (page [] None)) []
                 _ _ _ Hpre Hlast _) _);
    vm_compute; reflexivity.
Defined.

Lemma categories_come_from_the_map_witness :
  exists r reqs,
    sample_fetch exact_pages false = (Returned r, reqs)
    /\ forall category x,
         Dict.get category (earnings_by_category r) = Some x ->
         category = "Other Allowances"
         \/ exists code, sample_category_map !! code = Some category.
Proof.
  eexists _, _. split; [vm_compute; reflexivity|].
  refine (proj1
            (categories_come_from_the_map (A := Z) sample_fromisoformat
               "https://api.merge.dev/api/hris/v1/employee-payroll-runs"
               "63ba045d-a1dc-465f-a5ba-798c1d333278" sample_start sample_end
               2025 "key" "token" ∅ sample_category_map false exact_pages
               _ _ _)).
  vm_compute. reflexivity.
Defined.

(** ** The three-way cross-check *)

Section ExactUnits.
Context {A : Type} `{Amount A}.
Variables (units : Z -> A) (bound : Z).
Hypothesis exact : exact_within units bound.
Variables earnings_map category_map : gmap string string.

Lemma magnitude_cons n ns : magnitude (n :: ns) = Z.abs n + magnitude ns.
Proof. reflexivity. Qed.

Lemma units_sum_cons n ns : units_sum (n :: ns) = n + units_sum ns.
Proof. reflexivity. Qed.

Lemma magnitude_nonneg ns : 0 <= magnitude ns.
Proof.
  induction ns as [|n ns IH]; [reflexivity|]. rewrite magnitude_cons. lia.
Qed.

Lemma fold_units ns : forall s,
  Z.abs s + magnitude ns <= bound ->
  fold_left aplus (map units ns) (units s) = units (s + units_sum ns).
Proof.
  induction ns as [|n ns IH]; intros s Hb.
  - cbn. now rewrite Z.add_0_r.
  - rewrite magnitude_cons in Hb. rewrite units_sum_cons. cbn [map fold_left].
    pose proof (magnitude_nonneg ns).
    rewrite (proj2 exact) by lia. rewrite IH by lia. f_equal. lia.
Qed.

Lemma sum_of_units ns :
  magnitude ns <= bound -> sum_amounts (map units ns) = units (units_sum ns).
Proof.
  intros Hb. unfold sum_amounts. rewrite <- (proj1 exact).
  now rewrite fold_units by (cbn [Z.abs]; lia).
Qed.

(** Adding [n] units under a key, after making sure of the key. *)
Lemma units_alter {V : Type} (w : V -> A) (f : V -> V) (v0 : V) n k :
  w v0 = azero -> (forall v, w (f v) = aplus (w v) (units n)) ->
  forall (d : Dict.t V) ts,
    map w (Dict.values d) = map units ts ->
    magnitude ts + Z.abs n <= bound ->
    exists ts',
      map w (Dict.values (Dict.alter f k (Dict.setdefault k v0 d)))
      = map units ts'
      /\ units_sum ts' = units_sum ts + n
      /\ magnitude ts' <= magnitude ts + Z.abs n.
Proof.
  intros Hv0 Hf. unfold Dict.values, Dict.setdefault, Dict.mem.
  induction d as [|[k' v'] d IH]; intros ts Hts Hb.
  - destruct ts; [|discriminate]. exists [n]. cbn [Dict.get Dict.set].
    cbn [Dict.alter]. rewrite String.eqb_refl. cbn [map snd].
    change (magnitude []) with 0 in *. change (units_sum []) with 0.
    rewrite Hf, Hv0, <- (proj1 exact), (proj2 exact) by (cbn [Z.abs]; lia).
    rewrite magnitude_cons, units_sum_cons.
    change (magnitude []) with 0. change (units_sum []) with 0.
    repeat split; lia.
  - destruct ts as [|t ts]; [discriminate|]. cbn [map snd] in Hts.
    injection Hts as Ht Hts. rewrite magnitude_cons in Hb.
    pose proof (magnitude_nonneg ts).
    cbn [Dict.get]. destruct (String.eqb k k') eqn:E.
    + cbv iota. exists ((t + n) :: ts). cbn [Dict.alter]. rewrite E.
      cbn [map snd].
      rewrite Hf, Ht, (proj2 exact), Hts by lia.
      rewrite !magnitude_cons, !units_sum_cons.
      repeat split; lia.
    + cbv iota. assert (Hb' : magnitude ts + Z.abs n <= bound) by lia.
      generalize (IH ts Hts Hb'). clear IH.
      destruct (Dict.get k d) as [v1|];
        do 3 (cbn [Dict.set Dict.alter map snd]; rewrite ?E);
        cbn [Dict.set Dict.alter map snd];
        intros (ts' & Hm & Hs & Hmag);
        exists (t :: ts'); rewrite Ht, Hm;
        rewrite !magnitude_cons, !units_sum_cons; repeat split; lia.
Qed.

Lemma counted_empty y n :
  counted units 0 (with_net_pay n (empty_earnings y)).
Proof.
  exists 0, [], []. cbn. rewrite (proj1 exact). repeat split; reflexivity || lia.
Qed.

Lemma counted_earning spent (r : FiscalYearEarnings A) e n :
  counted units spent r ->
  e_amount e = Some (units n) -> eq_zero (units n) = false ->
  spent + Z.abs n <= bound ->
  counted units (spent + Z.abs n)
    (process_earning earnings_map category_map r e).
Proof.
  intros (T & ts & gs & HT & Hts & Hgs & Sts & Sgs & BT & Bts & Bgs) Ha Hz Hb.
  rewrite (process_earning_accepted _ _ _ _ _ Ha Hz).
  destruct (units_alter amount (add_to_detail (units n))
              {| earning_code := e_type e;
                 label := default (e_type e) (earnings_map !! e_type e);
                 amount := azero |} n (e_type e) eq_refl
              (fun v => eq_refl) (earnings_by_type r) ts Hts)
    as (ts' & Hts' & Sts' & Bts'); [lia|].
  destruct (units_alter (fun v : A => v) (fun v => aplus v (units n)) azero n
              (resolve_category category_map (e_type e)) eq_refl
              (fun v => eq_refl) (earnings_by_category r) gs)
    as (gs' & Hgs' & Sgs' & Bgs'); [now rewrite map_id|lia|].
  rewrite map_id in Hgs'.
  exists (T + n), ts', gs'. cbn.
  rewrite HT, (proj2 exact) by lia.
  repeat split; try assumption; lia.
Qed.

Lemma counted_fold es : forall ns spent (r : FiscalYearEarnings A),
  counted units spent r ->
  accepted_amounts es = map units ns ->
  spent + magnitude ns <= bound ->
  counted units (spent + magnitude ns)
    (fold_left (process_earning earnings_map category_map) es r).
Proof.
  induction es as [|e es IH]; intros ns spent r Hr Hns Hb.
  - destruct ns; [|discriminate]. cbn [fold_left].
    change (magnitude []) with 0. now rewrite Z.add_0_r.
  - cbn [fold_left]. cbn [accepted_amounts] in Hns.
    destruct (e_amount e) as [a|] eqn:Ha; [destruct (eq_zero a) eqn:Hz|].
    + rewrite zero_or_null_amount_is_ignored_aux by eauto. now apply IH.
    + destruct ns as [|n ns]; [discriminate|]. cbn [map] in Hns.
      rewrite magnitude_cons in *.
      injection Hns as -> Hns. pose proof (magnitude_nonneg ns).
      replace (spent + (Z.abs n + magnitude ns))
        with ((spent + Z.abs n) + magnitude ns) by lia.
      apply IH; [|exact Hns|lia].
      apply counted_earning; auto. lia.
    + rewrite zero_or_null_amount_is_ignored_aux by eauto. now apply IH.
Qed.

Lemma counted_cross_check spent (r : FiscalYearEarnings A) :
  counted units spent r -> spent <= bound ->
  total_gross_earnings r = sum_by_type r
  /\ sum_by_type r = sum_by_category r.
Proof.
  intros (T & ts & gs & HT & Hts & Hgs & Sts & Sgs & BT & Bts & Bgs) Hb.
  unfold sum_by_type, sum_by_category.
  rewrite Hts, Hgs, !sum_of_units by lia. rewrite Sts, Sgs. auto.
Qed.
End ExactUnits.

(** C1, amended.  When the amounts of the accepted earning lines read by a
    period fetch are whole numbers of a unit, and the addition of such
    amounts is exact up to the total of their magnitudes, the returned
    result has a gross total equal to the sum of the amounts per code, which
    is equal to the sum of the amounts per category.  The amounts may be
    binary64 numbers: then the condition says that none of the additions
    rounds. *)
Theorem three_way_cross_check {A : Type} `{Amount A}
    (units : Z -> A) (bound : Z) (ns : list Z)
    (fromisoformat : string -> option datetime)
    (base_url employee_id : string) (start_date end_date : datetime) (y : Z)
    (merge_api_key merge_account_token : string)
    (earnings_map category_map : gmap string string) (flag : bool)
    (pre : list (response A)) (last : response A) (rest : list (response A))
    (r : FiscalYearEarnings A) (reqs : list request) :
  exact_within units bound ->
  Forall has_next pre -> ~ has_next last ->
  _fetch_payroll_runs_for_period fromisoformat (pre ++ last :: rest)
    base_url employee_id start_date end_date y merge_api_key
    merge_account_token earnings_map category_map flag = (Returned r, reqs) ->
  accepted_amounts
    (lines_read fromisoformat flag start_date end_date (pre ++ [last]))
  = map units ns ->
  magnitude ns <= bound ->
  total_gross_earnings r = sum_by_type r
  /\ sum_by_type r = sum_by_category r.
Proof.
  intros Hexact Hpre Hlast Hf Hns Hb.
  apply (counted_cross_check units bound Hexact (0 + magnitude ns));
    [|lia].
  rewrite (fetched_is_fold _ _ _ _ _ _ _ _ _ _ _ _ _ _ _ _ Hpre Hlast Hf).
  apply (counted_fold units bound Hexact); [|exact Hns|lia].
  apply (counted_empty units bound Hexact).
Qed.

Lemma within_range (P : Z -> Prop) (b : nat) :
  (forall i : nat, (i <= 2 * b)%nat -> P (Z.of_nat i - Z.of_nat b)) ->
  forall m, Z.abs m <= Z.of_nat b -> P m.
Proof.
  intros HP m Hm.
  replace m with (Z.of_nat (Z.to_nat (m + Z.of_nat b)) - Z.of_nat b) by lia.
  apply HP. lia.
Qed.

(** Halves add up exactly in binary64, here up to a total magnitude of ten
    halves. *)
Lemma halves_exact_within : exact_within halves 10.
Proof.
  split; [reflexivity|]. intros m n Hb.
  assert (Hm : Z.abs m <= Z.of_nat 10) by lia.
  assert (Hn : Z.abs n <= Z.of_nat 10) by lia.
  clear Hb. revert n Hn. pattern m.
  apply (within_range _ 10); [|exact Hm]. intros i Hi n Hn. pattern n.
  apply (within_range _ 10); [|exact Hn]. intros j Hj.
  do 21 (destruct i as [|i];
         [do 21 (destruct j as [|j]; [vm_compute; reflexivity|]); lia|]).
  lia.
Qed.

(** Binary64 amounts 1.5, 2.0, -0.5 and 1.0 on two pages: seven halves in
    all, of total magnitude 10. *)
Lemma three_way_cross_check_witness :
  exists r reqs,
    sample_fetch half_unit_pages false = (Returned r, reqs)
    /\ total_gross_earnings r = 4%float
    /\ (total_gross_earnings r = sum_by_type r
        /\ sum_by_type r = sum_by_category r).
Proof.
  eexists _, _. split; [vm_compute; reflexivity|]. split; [reflexivity|].
  refine (three_way_cross_check (A := float) halves 10 [3; 4; -1; 2]
            sample_fromisoformat
            "https://api.merge.dev/api/hris/v1/employee-payroll-runs"
            "63ba045d-a1dc-465f-a5ba-798c1d333278" sample_start sample_end
            2025 "key" "token" ∅ sample_category_map false
            (firstn 1 half_unit_pages)
            (nth 1 half_unit_pages (page [] None)) [] _ _
            halves_exact_within _ _ _ _ _).
  - repeat constructor.
  - unfold has_next. cbn. discriminate.
  - vm_compute. reflexivity.
  - vm_compute. reflexivity.
  - vm_compute. discriminate.
Defined.

(** C1 as stated fails for the program as it runs.  With binary64 amounts
    1000.1 (REG), 500.2 (OT) and 200.3 (REG) the gross total is
    (1000.1 + 500.2) + 200.3 = 1700.6 whereas the amounts per code add up to
    (1000.1 + 200.3) + 500.2 = 1700.6000000000001. *)
Lemma cross_check_fails_in_binary64 :
  exists r reqs,
    sample_fetch float_pages false = (Returned r, reqs)
    /\ total_gross_earnings r <> sum_by_type r.
Proof.
  eexists _, _. split; [vm_compute; reflexivity|].
  intros Heq.
  apply (f_equal (fun v => PrimFloat.eqb v 0x1.a926666666666p+10%float)) in Heq.
  vm_compute in Heq. discriminate.
Qed.

(** ** Requests, failures and page boundaries *)

Section Requests.
Context {A : Type} `{Amount A}.
Variable fromisoformat : string -> option datetime.
Variables (base_url employee_id : string) (start_date end_date : datetime).
Variables (y : Z) (merge_api_key merge_account_token : string).
Variables earnings_map category_map : gmap string string.
Variable flag : bool.

#[local] Abbreviation fetch'' := (fun responses =>
  _fetch_payroll_runs_for_period fromisoformat responses base_url employee_id
    start_date end_date y merge_api_key merge_account_token earnings_map
    category_map flag).
#[local] Abbreviation loop'' :=
  (fetch_loop fromisoformat base_url
     (query_params employee_id start_date end_date flag)
     (request_headers merge_api_key merge_account_token) flag start_date
     end_date earnings_map category_map).
#[local] Abbreviation runs_of'' :=
  (process_results fromisoformat flag start_date end_date earnings_map
     category_map).

Lemma built_request_is_well_formed cursor :
  well_formed_request base_url employee_id start_date end_date merge_api_key
    merge_account_token flag
    (build_request base_url
       (query_params employee_id start_date end_date flag)
       (request_headers merge_api_key merge_account_token) cursor).
Proof.
  unfold well_formed_request, build_request. cbn [url headers params].
  split; [reflexivity|]. split; [reflexivity|].
  assert (Hq : forall k, k <> "cursor" ->
            Dict.get k
              match cursor with
              | Some c =>
                  if truthy_str cursor
                  then Dict.set "cursor" c
                         (query_params employee_id start_date end_date flag)
                  else query_params employee_id start_date end_date flag
              | None => query_params employee_id start_date end_date flag
              end
            = Dict.get k (query_params employee_id start_date end_date flag)).
  { intros k Hk. destruct cursor as [c|]; [|reflexivity].
    destruct (truthy_str (Some c)); [|reflexivity].
    apply get_set_ne. congruence. }
  rewrite !Hq by discriminate.
  destruct flag; repeat split; reflexivity.
Qed.

Lemma loop_requests_well_formed responses : forall cursor r,
  Forall
    (well_formed_request base_url employee_id start_date end_date
       merge_api_key merge_account_token flag)
    (snd (loop'' responses cursor r)).
Proof.
  assert (Hone : forall cursor,
            Forall
              (well_formed_request base_url employee_id start_date end_date
                 merge_api_key merge_account_token flag)
              [build_request base_url
                 (query_params employee_id start_date end_date flag)
                 (request_headers merge_api_key merge_account_token) cursor]).
  { intros cursor. constructor; [apply built_request_is_well_formed|].
    constructor. }
  induction responses as [|resp responses IH]; intros cursor r; cbn.
  - apply Hone.
  - destruct (negb (status_code resp =? 200)); cbn; [apply Hone|].
    destruct (runs_of'' (results resp) r) as [e|r1]; cbn; [apply Hone|].
    destruct (truthy_str (next resp)); cbn; [|apply Hone].
    specialize (IH (next resp) r1).
    destruct (loop'' responses (next resp) r1) as [o reqs]. cbn in *.
    constructor; [apply built_request_is_well_formed|exact IH].
Qed.

(** X5.  Whatever the responses, every request that a period fetch makes
    goes to the given URL with the bearer token, the account token and the
    JSON accept header, and carries the employee filter, the three
    expansions and a page size of 100; it carries the two date bounds, as
    [strftime("%Y-%m-%d")] prints them, exactly when the check-date filter
    is off. *)
Theorem every_request_is_well_formed responses :
  Forall
    (well_formed_request base_url employee_id start_date end_date
       merge_api_key merge_account_token flag)
    (snd (fetch'' responses)).
Proof. apply loop_requests_well_formed. Qed.

Lemma loop_outcome pre last rest : forall cursor r,
  Forall has_next pre -> ~ has_next last ->
  Forall (fun p => status_code p = 200) (pre ++ [last]) ->
  fst (loop'' (pre ++ last :: rest)%list cursor r)
  = match runs_of'' (all_runs (pre ++ [last])) r with
    | inr r' => Returned r'
    | inl e => Raised e
    end.
Proof.
  unfold has_next.
  induction pre as [|p pre IH]; intros cursor r Hpre Hlast Hok; cbn.
  - inversion Hok as [|? ? H200 _]; subst. rewrite H200. cbn.
    unfold all_runs. cbn. rewrite app_nil_r.
    destruct (runs_of'' (results last) r) as [e|r1]; [reflexivity|].
    destruct (truthy_str (next last)); [congruence|reflexivity].
  - inversion Hpre as [|? ? Hp Hpre']; subst.
    inversion Hok as [|? ? H200 Hok']; subst. rewrite H200. cbn.
    unfold all_runs. cbn. rewrite process_results_app.
    destruct (runs_of'' (results p) r) as [e|r1]; [reflexivity|].
    rewrite Hp. specialize (IH (next p) r1 Hpre' Hlast Hok').
    destruct (loop'' (pre ++ last :: rest)%list (next p) r1) as [o reqs].
    exact IH.
Qed.

(** X7.  Page boundaries are invisible: two scripts of status-200 pages
    that carry the same runs in the same order, however these are cut into
    pages, make the fetch end the same way, with the same result or with
    the same exception. *)
Theorem page_boundaries_do_not_matter pre1 last1 rest1 pre2 last2 rest2 :
  Forall has_next pre1 -> ~ has_next last1 ->
  Forall (fun p => status_code p = 200) (pre1 ++ [last1]) ->
  Forall has_next pre2 -> ~ has_next last2 ->
  Forall (fun p => status_code p = 200) (pre2 ++ [last2]) ->
  all_runs (pre1 ++ [last1]) = all_runs (pre2 ++ [last2]) ->
  fst (fetch'' (pre1 ++ last1 :: rest1)%list)
  = fst (fetch'' (pre2 ++ last2 :: rest2)%list).
Proof.
  intros Hp1 Hl1 Ho1 Hp2 Hl2 Ho2 Hruns.
  unfold _fetch_payroll_runs_for_period.
  rewrite (loop_outcome pre1 last1 rest1 None _ Hp1 Hl1 Ho1).
  rewrite (loop_outcome pre2 last2 rest2 None _ Hp2 Hl2 Ho2).
  now rewrite Hruns.
Qed.
End Requests.

(** The same two runs on two pages and on one page. *)
Lemma page_boundaries_do_not_matter_witness :
  all_runs exact_pages = all_runs exact_one_page
  /\ fst (sample_fetch exact_pages false)
     = fst (sample_fetch exact_one_page false).
Proof.
  split; [reflexivity|].
  refine (page_boundaries_do_not_matter (A := Z) sample_fromisoformat
            "https://api.merge.dev/api/hris/v1/employee-payroll-runs"
            "63ba045d-a1dc-465f-a5ba-798c1d333278" sample_start sample_end
            2025 "key" "token" ∅ sample_category_map false
            (firstn 1 exact_pages) (nth 1 exact_pages (page [] None)) []
            [] (nth 0 exact_one_page (page [] None)) [] _ _ _ _ _ _ _).
  - repeat constructor.
  - unfold has_next. cbn. discriminate.
  - repeat constructor.
  - constructor.
  - unfold has_next. cbn. discriminate.
  - repeat constructor.
  - reflexivity.
Defined.

(** ** Region, default window and failures of the orchestrator *)

Lemma datetime_new_midnight y m d tz t :
  datetime_new y m d tz = inr t ->
  t = {| dt_year := y; dt_month := m; dt_day := d; dt_hour := 0;
         dt_minute := 0; dt_second := 0; dt_microsecond := 0; tzinfo := tz |}.
Proof.
  unfold datetime_new. destruct (_ && _); [|discriminate]. now intros [= <-].
Qed.

Lemma datetime_new_defined y m d tz :
  1 <= y <= 9999 -> 1 <= m <= 12 -> 1 <= d <= days_in_month y m ->
  exists t, datetime_new y m d tz = inr t.
Proof.
  intros Hy Hm Hd. unfold datetime_new, MINYEAR, MAXYEAR.
  replace ((1 <=? y) && (y <=? 9999) && (1 <=? m) && (m <=? 12) && (1 <=? d)
           && (d <=? days_in_month y m)) with true; [eauto|].
  symmetry. rewrite !andb_true_iff, !Z.leb_le. lia.
Qed.

Lemma hosts_unknown region :
  region <> "US" -> region <> "EU" -> region <> "APAC" ->
  Dict.get region HOSTS = None.
Proof.
  intros H1 H2 H3. unfold HOSTS. cbn.
  destruct (String.eqb_spec region "US"); [contradiction|].
  destruct (String.eqb_spec region "EU"); [contradiction|].
  destruct (String.eqb_spec region "APAC"); [contradiction|reflexivity].
Qed.

Section Orchestration.
Context {A : Type} `{Amount A}.
Variable fromisoformat : string -> option datetime.
Variable json_load : string -> option (gmap string string).

#[local] Abbreviation summarize :=
  (summarize_employee_payroll_runs fromisoformat json_load).

(** X8.  A region other than "US", "EU" and "APAC" (the comparison is
    case-sensitive) makes the orchestrator raise [KeyError] before anything
    else is looked at: whatever the dates, the files and the responses. *)
Theorem unknown_region_raises_key_error (w : world A) employee_id
    current_fy_start current_fy_end region flag earnings_map_file
    category_map_file :
  region <> "US" -> region <> "EU" -> region <> "APAC" ->
  summarize w employee_id current_fy_start current_fy_end region flag
    earnings_map_file category_map_file = Raised KeyError.
Proof.
  intros H1 H2 H3. unfold summarize_employee_payroll_runs.
  now rewrite (hosts_unknown region H1 H2 H3).
Qed.

(** X9.  Without explicit dates the current window is January 1 to
    December 31 of the clock's year and the prior window the calendar year
    before, labelled with these two years; and for a clock year from 2 to
    9999 the four dates of the two windows are built without exception. *)
Theorem default_window_is_the_calendar_year (w : world A) employee_id region
    flag earnings_map_file category_map_file :
  (forall s,
     summarize w employee_id None None region flag earnings_map_file
       category_map_file = Returned s ->
     start_date (current_fy s)
     = strftime_ymd (midnight_utc (dt_year (now_utc w)) 1 1)
     /\ end_date (current_fy s)
        = strftime_ymd (midnight_utc (dt_year (now_utc w)) 12 31)
     /\ start_date (last_fy s)
        = strftime_ymd (midnight_utc (dt_year (now_utc w) - 1) 1 1)
     /\ end_date (last_fy s)
        = strftime_ymd (midnight_utc (dt_year (now_utc w) - 1) 12 31)
     /\ fy_year (current_fy s) = dt_year (now_utc w)
     /\ fy_year (last_fy s) = dt_year (now_utc w) - 1)
  /\ (2 <= dt_year (now_utc w) <= 9999 ->
      this_fy_start_of w None = inr (midnight_utc (dt_year (now_utc w)) 1 1)
      /\ this_fy_end_of w None
         = inr (midnight_utc (dt_year (now_utc w)) 12 31)
      /\ one_year_earlier (midnight_utc (dt_year (now_utc w)) 1 1)
         = inr (midnight_utc (dt_year (now_utc w) - 1) 1 1)
      /\ one_year_earlier (midnight_utc (dt_year (now_utc w)) 12 31)
         = inr (midnight_utc (dt_year (now_utc w) - 1) 12 31)).
Proof.
  split.
  - intros s Hs.
    destruct (summary_returned _ _ _ _ _ _ _ _ _ _ _ Hs)
      as (t1 & t2 & l1 & l2 & d1 & d2 & E1 & E2 & E3 & E4 & Y1 & Y2 & ->).
    cbn in E1, E2.
    apply datetime_new_midnight in E1, E2. subst t1 t2.
    unfold one_year_earlier in E3, E4. cbn in E3, E4.
    apply datetime_new_midnight in E3, E4. subst l1 l2.
    cbn in *. repeat split; auto.
  - intros Hy. cbn [this_fy_start_of this_fy_end_of].
    unfold one_year_earlier. cbn [dt_year dt_month dt_day midnight_utc].
    destruct (datetime_new_defined (dt_year (now_utc w)) 1 1 utc)
      as [t1 E1]; [lia|lia|cbn; lia|].
    destruct (datetime_new_defined (dt_year (now_utc w)) 12 31 utc)
      as [t2 E2]; [lia|lia|cbn; lia|].
    destruct (datetime_new_defined (dt_year (now_utc w) - 1) 1 1 utc)
      as [l1 E3]; [lia|lia|cbn; lia|].
    destruct (datetime_new_defined (dt_year (now_utc w) - 1) 12 31 utc)
      as [l2 E4]; [lia|lia|cbn; lia|].
    rewrite E1, E2, E3, E4.
    apply datetime_new_midnight in E1, E2, E3, E4. subst t1 t2 l1 l2.
    repeat split; reflexivity.
Qed.
End Orchestration.

Lemma unknown_region_raises_key_error_witness :
  summarize_employee_payroll_runs sample_fromisoformat sample_json_load
    sample_world "63ba045d-a1dc-465f-a5ba-798c1d333278" None None "us" false
    "earnings_ukg.json" "earnings_to_aon.json"
  = Raised KeyError.
Proof.
  apply (unknown_region_raises_key_error (A := Z)); discriminate.
Defined.

Lemma default_window_is_the_calendar_year_witness :
  (exists s,
     summarize_employee_payroll_runs sample_fromisoformat sample_json_load
       sample_world "63ba045d-a1dc-465f-a5ba-798c1d333278" None None "US"
       false "earnings_ukg.json" "earnings_to_aon.json"
     = Returned s
     /\ start_date (current_fy s) = "2026-01-01"
     /\ end_date (current_fy s) = "2026-12-31"
     /\ start_date (last_fy s) = "2025-01-01"
     /\ end_date (last_fy s) = "2025-12-31"
     /\ fy_year (current_fy s) = 2026
     /\ fy_year (last_fy s) = 2025)
  /\ one_year_earlier (midnight_utc 2026 12 31)
     = inr (midnight_utc 2025 12 31).
Proof.
  split.
  - eexists. split; [vm_compute; reflexivity|].
    refine (proj1
              (default_window_is_the_calendar_year (A := Z)
                 sample_fromisoformat sample_json_load sample_world
                 "63ba045d-a1dc-465f-a5ba-798c1d333278" "US" false
                 "earnings_ukg.json" "earnings_to_aon.json") _ _).
    vm_compute. reflexivity.
  - refine (proj2 (proj2 (proj2 (proj2
              (default_window_is_the_calendar_year (A := Z)
                 sample_fromisoformat sample_json_load sample_world
                 "63ba045d-a1dc-465f-a5ba-798c1d333278" "US" false
                 "earnings_ukg.json" "earnings_to_aon.json") _)))).
    cbn. lia.
Defined.

(** * Properties of the environment file loader *)

Section EnvLines.
Implicit Types (environ : gmap string string) (out : list string).

Lemma assignments_app l1 l2 :
  assignments (l1 ++ l2) = (assignments l1 ++ assignments l2)%list.
Proof.
  induction l1 as [|l l1 IH]; cbn; auto.
  destruct (parse_env_line l); cbn; now rewrite IH.
Qed.

Lemma last_assigned_app key kvs1 kvs2 :
  last_assigned key (kvs1 ++ kvs2)
  = match last_assigned key kvs2 with
    | Some v => Some v
    | None => last_assigned key kvs1
    end.
Proof.
  induction kvs1 as [|[k v] kvs1 IH]; cbn.
  - now destruct (last_assigned key kvs2).
  - rewrite IH. now destruct (last_assigned key kvs2).
Qed.

Lemma setenv_assignable k v environ :
  assignable (k, v) = true -> setenv k v environ = inr (<[k := v]> environ).
Proof.
  unfold assignable, setenv. cbn.
  destruct (has_nul k), (has_nul v), (String.eqb k ""); cbn;
    intros; congruence.
Qed.

Lemma setenv_not_assignable k v environ :
  assignable (k, v) = false ->
  setenv k v environ
  = inl (if has_nul k || has_nul v then EmbeddedNull else IllegalName).
Proof.
  unfold assignable, setenv. cbn.
  destruct (has_nul k), (has_nul v), (String.eqb k ""); cbn;
    intros; congruence.
Qed.

(** The environment and the failure do not depend on the line numbers nor
    on what was printed before. *)
Lemma load_env_lines_accepted lines : forall n environ out,
  forallb assignable (assignments lines) = true ->
  failure (load_env_lines n lines environ out) = None
  /\ forall key,
       environ_after (load_env_lines n lines environ out) !! key
       = assigned (assignments lines) environ key.
Proof.
  unfold assigned.
  induction lines as [|l lines IH]; intros n environ out; cbn.
  - intros _. split; [reflexivity|]. intros key. reflexivity.
  - destruct (parse_env_line l) as [[k v]|]; cbn; [|apply IH].
    intros Hok. apply andb_true_iff in Hok as [Hkv Hok].
    rewrite (setenv_assignable _ _ _ Hkv).
    destruct (IH (S n) (<[k := v]> environ)
                (if is_credential k
                 then (out ++ [key_report n k v])%list else out) Hok)
      as [Hf He].
    split; [exact Hf|]. intros key. rewrite He.
    destruct (last_assigned key (assignments lines)); [reflexivity|].
    destruct (String.eqb_spec k key) as [->|Hne].
    + apply lookup_insert_eq.
    + now apply lookup_insert_ne.
Qed.

Lemma load_env_lines_app l1 : forall l2 n environ out,
  forallb assignable (assignments l1) = true ->
  exists environ' out',
    load_env_lines n (l1 ++ l2) environ out
    = load_env_lines (n + length l1) l2 environ' out'
    /\ forall key, environ' !! key = assigned (assignments l1) environ key.
Proof.
  unfold assigned.
  induction l1 as [|l l1 IH]; intros l2 n environ out; cbn.
  - intros _. exists environ, out. rewrite Nat.add_0_r. auto.
  - destruct (parse_env_line l) as [[k v]|]; cbn.
    + intros Hok. apply andb_true_iff in Hok as [Hkv Hok].
      rewrite (setenv_assignable _ _ _ Hkv).
      destruct (IH l2 (S n) (<[k := v]> environ)
                  (if is_credential k
                   then (out ++ [key_report n k v])%list else out) Hok)
        as (environ' & out' & Heq & He).
      exists environ', out'. rewrite Heq, <- Nat.add_succ_comm.
      split; [reflexivity|]. intros key. rewrite He.
      destruct (last_assigned key (assignments l1)); [reflexivity|].
      destruct (String.eqb_spec k key) as [->|Hne].
      * apply lookup_insert_eq.
      * now apply lookup_insert_ne.
    + intros Hok.
      destruct (IH l2 (S n) environ out Hok) as (environ' & out' & Heq & He).
      exists environ', out'. now rewrite Heq, <- Nat.add_succ_comm.
Qed.
End EnvLines.

Section EnvFile.
Variable fs : filesystem.
Variable p : path.
Implicit Types (environ : gmap string string) (out : list string).

(** X10.  Loading a file that does not exist changes nothing and prints
    nothing.  When every assignment of the file is accepted, loading ends
    without exception and leaves each name with the value of the last line
    that assigns it, and every other name as it was. *)
Theorem env_file_last_assignment_wins environ :
  (fs p = None ->
   _load_env_file fs p environ
   = {| failure := None; environ_after := environ; printed := [] |})
  /\ forall content,
       fs p = Some content ->
       forallb assignable (assignments (file_lines content)) = true ->
       failure (_load_env_file fs p environ) = None
       /\ forall key,
            environ_after (_load_env_file fs p environ) !! key
            = match last_assigned key (assignments (file_lines content)) with
              | Some v => Some v
              | None => environ !! key
              end.
Proof.
  unfold _load_env_file. split.
  - now intros ->.
  - intros content -> Hok. now apply load_env_lines_accepted.
Qed.

(** X11.  The first assignment that the environment refuses (an empty
    name, or a NUL in the name or the value) ends the loading with an
    exception; the assignments of the lines before it stay in force and no
    later line is applied. *)
Theorem env_file_stops_at_refused_assignment environ content l1 line l2 k v :
  fs p = Some content ->
  file_lines content = (l1 ++ line :: l2)%list ->
  forallb assignable (assignments l1) = true ->
  parse_env_line line = Some (k, v) ->
  assignable (k, v) = false ->
  failure (_load_env_file fs p environ)
  = Some (if has_nul k || has_nul v then EmbeddedNull else IllegalName)
  /\ forall key,
       environ_after (_load_env_file fs p environ) !! key
       = assigned (assignments l1) environ key.
Proof.
  intros Hp Hlines Hok Hline Hbad. unfold _load_env_file.
  rewrite Hp, Hlines.
  destruct (load_env_lines_app l1 (line :: l2) 1 environ [] Hok)
    as (environ' & out' & -> & He).
  cbn. rewrite Hline, (setenv_not_assignable _ _ _ Hbad). cbn.
  split; [reflexivity|exact He].
Qed.
End EnvFile.

Lemma load_env_lines_numbering lines : forall n n' environ out out',
  failure (load_env_lines n lines environ out)
  = failure (load_env_lines n' lines environ out')
  /\ environ_after (load_env_lines n lines environ out)
     = environ_after (load_env_lines n' lines environ out').
Proof.
  induction lines as [|l lines IH]; intros n n' environ out out'; cbn.
  - auto.
  - destruct (parse_env_line l) as [[k v]|]; [|apply IH].
    destruct (setenv k v environ); cbn; [auto|apply IH].
Qed.

(** X12.  A line that is blank, that starts with ['#'] after leading white
    space, or that holds no ['='] assigns nothing: with or without it the
    loading fails or succeeds alike and leaves the same environment. *)
Theorem ignored_lines_change_nothing line :
  strip line = "" \/ startswith (strip line) "#" = true
  \/ split_eq (strip line) = None ->
  parse_env_line line = None
  /\ forall l1 l2 n environ out,
       failure (load_env_lines n (l1 ++ line :: l2) environ out)
       = failure (load_env_lines n (l1 ++ l2) environ out)
       /\ environ_after (load_env_lines n (l1 ++ line :: l2) environ out)
          = environ_after (load_env_lines n (l1 ++ l2) environ out).
Proof.
  intros Hline.
  assert (Hnone : parse_env_line line = None).
  { unfold parse_env_line. destruct Hline as [-> | [-> | ->]].
    - reflexivity.
    - now rewrite orb_true_r.
    - now destruct (_ || _). }
  split; [exact Hnone|].
  induction l1 as [|l l1 IH]; intros l2 n environ out; cbn.
  - rewrite Hnone. apply load_env_lines_numbering.
  - destruct (parse_env_line l) as [[k v]|]; [|apply IH].
    destruct (setenv k v environ); cbn; [auto|apply IH].
Qed.

Lemma env_file_last_assignment_wins_witness :
  failure (_load_env_file (env_fs sample_env_file) ["srv"; "app"; ".env"] ∅)
  = None
  /\ environ_after
       (_load_env_file (env_fs sample_env_file) ["srv"; "app"; ".env"] ∅)
     !! "MERGE_API_KEY" = Some "k-456"
  /\ environ_after
       (_load_env_file (env_fs sample_env_file) ["srv"; "app"; ".env"] ∅)
     !! "MERGE_ACCOUNT_TOKEN" = Some "tok=en"
  /\ environ_after
       (_load_env_file (env_fs sample_env_file) ["srv"; "app"; ".env"] ∅)
     !! "export nothing" = None.
Proof.
  destruct (proj2 (env_file_last_assignment_wins (env_fs sample_env_file)
                     ["srv"; "app"; ".env"] ∅)
              sample_env_file eq_refl eq_refl) as [Hf He].
  split; [exact Hf|]. split; [|split]; rewrite He; reflexivity.
Defined.

Lemma env_file_stops_at_refused_assignment_witness :
  failure (_load_env_file (env_fs broken_env_file) ["srv"; "app"; ".env"] ∅)
  = Some IllegalName
  /\ environ_after
       (_load_env_file (env_fs broken_env_file) ["srv"; "app"; ".env"] ∅)
     !! "A" = Some "1"
  /\ environ_after
       (_load_env_file (env_fs broken_env_file) ["srv"; "app"; ".env"] ∅)
     !! "B" = None.
Proof.
  destruct (env_file_stops_at_refused_assignment (env_fs broken_env_file)
              ["srv"; "app"; ".env"] ∅ broken_env_file
              ["A=1" ++ String LF ""] ("=x" ++ String LF "")
              ["B=2" ++ String LF ""] "" "x"
              eq_refl eq_refl eq_refl eq_refl eq_refl) as [Hf He].
  split; [exact Hf|]. split; rewrite He; reflexivity.
Defined.

Lemma ignored_lines_change_nothing_witness :
  parse_env_line "   # MERGE_API_KEY=abc" = None
  /\ parse_env_line "export nothing" = None.
Proof.
  split.
  - apply (ignored_lines_change_nothing "   # MERGE_API_KEY=abc").
    right. left. reflexivity.
  - apply (ignored_lines_change_nothing "export nothing").
    right. right. reflexivity.
Defined.

(** ** Lines of an environment file *)

Lemma append_cons c (s t : string) : String c s ++ t = String c (s ++ t).
Proof. reflexivity. Qed.

Lemma append_nil (t : string) : "" ++ t = t.
Proof. reflexivity. Qed.

Lemma append_nil_r (s : string) : s ++ "" = s.
Proof.
  induction s as [|c s IH]; [reflexivity|]. rewrite append_cons. now rewrite IH.
Qed.

Lemma length_app_s (s t : string) :
  String.length (s ++ t) = (String.length s + String.length t)%nat.
Proof.
  induction s as [|c s IH]; [reflexivity|].
  rewrite append_cons. simpl. now rewrite IH.
Qed.

Lemma app_assoc_s (s t u : string) : (s ++ t) ++ u = s ++ (t ++ u).
Proof.
  induction s as [|c s IH]; [reflexivity|].
  rewrite !append_cons. now rewrite IH.
Qed.

Lemma app_nonempty (s t : string) : t <> "" -> s ++ t <> "".
Proof.
  destruct s; [now rewrite append_nil|]. rewrite append_cons. discriminate.
Qed.

Lemma substring_prefix (v t : string) :
  String.substring 0 (String.length v) (v ++ t) = v.
Proof.
  induction v as [|c v IH]; [rewrite append_nil; now destruct t|].
  rewrite append_cons. simpl. now rewrite IH.
Qed.

Lemma substring_skip (s t : string) m :
  String.substring (String.length s) m (s ++ t) = String.substring 0 m t.
Proof.
  induction s as [|c s IH]; [reflexivity|].
  rewrite append_cons. simpl. exact IH.
Qed.

Lemma substring_all (t : string) :
  String.substring 0 (String.length t) t = t.
Proof. induction t as [|c t IH]; simpl; [reflexivity|now rewrite IH]. Qed.

Lemma endswith_app (s q : string) : endswith (s ++ q) q = true.
Proof.
  unfold endswith. rewrite length_app_s.
  replace (String.length s + String.length q - String.length q)%nat
    with (String.length s) by lia.
  rewrite substring_skip, substring_all, String.eqb_refl.
  apply andb_true_iff. split; [apply Nat.leb_le; lia|reflexivity].
Qed.

Lemma startswith_cons_eq a s q :
  startswith (String a s) (String a q) = startswith s q.
Proof. unfold startswith. simpl. now destruct (ascii_dec a a). Qed.

Lemma startswith_cons_ne a b s q :
  a <> b -> startswith (String b s) (String a q) = false.
Proof. intros Hne. unfold startswith. simpl. now destruct (ascii_dec a b). Qed.

Lemma startswith_nil s : startswith s "" = true.
Proof. unfold startswith. now destruct s. Qed.

Lemma startswith_cons_inv a s q :
  startswith s (String a q) = true -> exists s', s = String a s'.
Proof.
  unfold startswith. destruct s as [|b s]; simpl; [discriminate|].
  destruct (ascii_dec a b) as [->|]; [eauto|discriminate].
Qed.

Lemma lstrip_cons c s : isspace c = false -> lstrip (String c s) = String c s.
Proof. intros Hc. simpl. now rewrite Hc. Qed.

Lemma lstrip_length s : (String.length (lstrip s) <= String.length s)%nat.
Proof.
  induction s as [|c s IH]; simpl; [lia|].
  destruct (isspace c); simpl; lia.
Qed.

Lemma lstrip_fixed s :
  lstrip s = s -> s = "" \/ exists c s', s = String c s' /\ isspace c = false.
Proof.
  intros Hfix. destruct s as [|c s]; [now left|]. right. exists c, s.
  split; [reflexivity|].
  destruct (isspace c) eqn:E; [|reflexivity].
  simpl in Hfix. rewrite E in Hfix.
  pose proof (lstrip_length s) as Hl. rewrite Hfix in Hl. simpl in Hl. lia.
Qed.

Lemma lstrip_blank_app w s : blank w = true -> lstrip (w ++ s) = lstrip s.
Proof.
  induction w as [|c w IH]; [reflexivity|].
  intros Hb. simpl in Hb. apply andb_true_iff in Hb as [Hc Hw].
  rewrite append_cons. simpl. rewrite Hc. auto.
Qed.

Lemma rstrip_blank w : blank w = true -> rstrip w = "".
Proof.
  induction w as [|c w IH]; [reflexivity|].
  simpl. intros Hb. apply andb_true_iff in Hb as [Hc Hw].
  now rewrite IH, Hc.
Qed.

Lemma rstrip_app_blank s w : blank w = true -> rstrip (s ++ w) = rstrip s.
Proof.
  intros Hw. induction s as [|c s IH].
  - rewrite append_nil. now apply rstrip_blank.
  - rewrite append_cons. simpl. now rewrite IH.
Qed.

Lemma rstrip_cons c s : isspace c = false ->
  rstrip (String c s) = String c (rstrip s).
Proof. intros Hc. simpl. rewrite Hc. now destruct (rstrip s). Qed.

Lemma rstrip_app_nonempty s t :
  rstrip t <> "" -> rstrip (s ++ t) = s ++ rstrip t.
Proof.
  intros Hne. induction s as [|c s IH]; [reflexivity|].
  rewrite !append_cons. simpl. rewrite IH.
  destruct (s ++ rstrip t) eqn:E; [|reflexivity].
  now apply app_nonempty in E.
Qed.

Lemma rstrip_app s t : rstrip t = t -> t <> "" -> rstrip (s ++ t) = s ++ t.
Proof.
  intros Ht Hne. rewrite rstrip_app_nonempty; rewrite Ht; auto.
Qed.

Lemma rstrip_last s d : isspace d = false ->
  rstrip (s ++ String d "") = s ++ String d "".
Proof.
  intros Hd. apply rstrip_app; [|discriminate]. simpl. now rewrite Hd.
Qed.

Lemma split_eq_app k rest :
  split_eq k = None -> split_eq (k ++ String "=" rest) = Some (k, rest).
Proof.
  induction k as [|c k IH]; [reflexivity|].
  rewrite append_cons. simpl.
  destruct (Ascii.eqb c "="); [discriminate|].
  destruct (split_eq k) as [[? ?]|]; [discriminate|].
  intros _. now rewrite IH.
Qed.

Lemma split_eq_blank w : blank w = true -> split_eq w = None.
Proof.
  induction w as [|c w IH]; [reflexivity|].
  simpl. intros Hb. apply andb_true_iff in Hb as [Hc Hw].
  rewrite (IH Hw).
  destruct (Ascii.eqb_spec c "="); [|reflexivity].
  subst c. vm_compute in Hc. discriminate.
Qed.

Lemma split_eq_app_none s t :
  split_eq s = None -> split_eq t = None -> split_eq (s ++ t) = None.
Proof.
  intros Hs Ht. induction s as [|c s IH]; [exact Ht|].
  rewrite append_cons. simpl in *.
  destruct (Ascii.eqb c "="); [discriminate|].
  destruct (split_eq s) as [[? ?]|]; [discriminate|].
  now rewrite IH.
Qed.

(** What is left of the right-hand side once the line is stripped, stripped
    again, is the value. *)
Lemma strip_value w3 val w4 :
  blank w3 = true -> blank w4 = true -> trimmed val ->
  strip (rstrip (w3 ++ val ++ w4)) = val.
Proof.
  intros H3 H4 [Hl Hr]. rewrite <- app_assoc_s, rstrip_app_blank by exact H4.
  destruct val as [|c val'].
  - rewrite append_nil_r, rstrip_blank by exact H3. reflexivity.
  - rewrite rstrip_app by (exact Hr || discriminate).
    unfold strip. now rewrite lstrip_blank_app, Hl by exact H3.
Qed.

Lemma parse_env_line_padded w1 k w2 w3 val w4 :
  plain_name k ->
  blank w1 = true -> blank w2 = true -> blank w3 = true -> blank w4 = true ->
  trimmed val ->
  parse_env_line (w1 ++ k ++ w2 ++ String "=" (w3 ++ val ++ w4))
  = Some (k, unquote val).
Proof.
  intros ((c & k' & -> & Hc & Hhash) & Hr & Hs) H1 H2 H3 H4 Hval.
  set (k := String c k') in *.
  unfold parse_env_line.
  assert (Hstrip : strip (w1 ++ k ++ w2 ++ String "=" (w3 ++ val ++ w4))
                   = (k ++ w2) ++ String "=" (rstrip (w3 ++ val ++ w4))).
  { unfold strip. rewrite lstrip_blank_app by exact H1.
    unfold k at 1. rewrite append_cons, lstrip_cons by exact Hc.
    rewrite <- append_cons. fold k. rewrite <- app_assoc_s.
    rewrite rstrip_app_nonempty; rewrite rstrip_cons by reflexivity;
      [reflexivity|discriminate]. }
  rewrite Hstrip.
  assert (Hnot : String.eqb ((k ++ w2) ++ String "=" (rstrip (w3 ++ val ++ w4))) ""
                 || startswith ((k ++ w2) ++ String "=" (rstrip (w3 ++ val ++ w4))) "#"
                 = false).
  { unfold k. rewrite !append_cons, startswith_cons_ne.
    - reflexivity.
    - intros E. subst c. vm_compute in Hhash. discriminate. }
  rewrite Hnot, split_eq_app
    by (apply split_eq_app_none; [exact Hs|now apply split_eq_blank]).
  f_equal. f_equal.
  - unfold strip, k. rewrite append_cons, lstrip_cons by exact Hc.
    rewrite <- append_cons. fold k. now rewrite rstrip_app_blank.
  - f_equal. now apply strip_value.
Qed.

(** ** Quoted values *)

Lemma not_quoted_start v a :
  startswith v (String a "") = false ->
  v = "" \/ exists c v', v = String c v' /\ a <> c.
Proof.
  intros Hv. destruct v as [|c v']; [now left|]. right. exists c, v'.
  split; [reflexivity|]. intros ->.
  now rewrite startswith_cons_eq, startswith_nil in Hv.
Qed.

Lemma unquote_plain v :
  startswith v DQ1 = false -> startswith v SQ1 = false -> unquote v = v.
Proof.
  intros Hd Hs. unfold unquote.
  destruct (not_quoted_start _ _ Hd) as [->|(c & v' & -> & Hcd)];
    [reflexivity|].
  destruct (not_quoted_start _ _ Hs) as [E|(c' & v'' & E & Hcs)];
    [discriminate|]. injection E as <- <-.
  unfold DQ3, DQ2, DQ1, SQ2, SQ1.
  rewrite !startswith_cons_ne by assumption. cbn [andb].
  repeat match goal with
         | |- context [String.eqb ?a ?b] =>
             destruct (String.eqb_spec a b) as [E|_];
             [injection E as E1 E2; congruence|]
         end.
  reflexivity.
Qed.

Lemma slice_quoted (q v : string) :
  slice (String.length q) (String.length q) (q ++ v ++ q) = v.
Proof.
  unfold slice. rewrite !length_app_s, substring_skip.
  replace (String.length q + (String.length v + String.length q)
           - String.length q - String.length q)%nat
    with (String.length v) by lia.
  apply substring_prefix.
Qed.

Lemma unquote_single v : unquote (SQ1 ++ v ++ SQ1) = v.
Proof.
  unfold unquote.
  assert (Hend : endswith (SQ1 ++ v ++ SQ1) SQ1 = true)
    by (rewrite <- app_assoc_s; apply endswith_app).
  assert (Hlen : (2 <=? String.length (SQ1 ++ v ++ SQ1))%nat = true)
    by (apply Nat.leb_le; rewrite !length_app_s; simpl; lia).
  assert (Hnot3 : startswith (SQ1 ++ v ++ SQ1) DQ3 = false) by reflexivity.
  assert (Hne3 : String.eqb (SQ1 ++ v ++ SQ1) DQ3 = false) by reflexivity.
  assert (Hnot1 : startswith (SQ1 ++ v ++ SQ1) DQ1 = false) by reflexivity.
  assert (Hne2 : String.eqb (SQ1 ++ v ++ SQ1) DQ2 = false) by reflexivity.
  assert (Hstart : startswith (SQ1 ++ v ++ SQ1) SQ1 = true).
  { change (startswith (String SQ (v ++ SQ1)) (String SQ "") = true).
    now rewrite startswith_cons_eq, startswith_nil. }
  rewrite Hnot3, Hne3, Hnot1, Hne2, Hstart, Hend, Hlen. cbn [andb].
  apply (slice_quoted SQ1 v).
Qed.

Lemma unquote_triple v : unquote (DQ3 ++ v ++ DQ3) = v.
Proof.
  unfold unquote.
  assert (Hend : endswith (DQ3 ++ v ++ DQ3) DQ3 = true)
    by (rewrite <- app_assoc_s; apply endswith_app).
  assert (Hlen : (6 <=? String.length (DQ3 ++ v ++ DQ3))%nat = true)
    by (apply Nat.leb_le; rewrite !length_app_s; simpl; lia).
  assert (Hstart : startswith (DQ3 ++ v ++ DQ3) DQ3 = true).
  { unfold DQ3 at 1 3, DQ2, DQ1. rewrite !append_cons, append_nil.
    now rewrite !startswith_cons_eq, startswith_nil. }
  rewrite Hstart, Hend, Hlen. cbn [andb]. apply (slice_quoted DQ3 v).
Qed.

Lemma unquote_double v :
  startswith v DQ1 = false -> unquote (DQ1 ++ v ++ DQ1) = v.
Proof.
  intros Hv. unfold unquote.
  assert (Hend : endswith (DQ1 ++ v ++ DQ1) DQ1 = true)
    by (rewrite <- app_assoc_s; apply endswith_app).
  assert (Hlen : (2 <=? String.length (DQ1 ++ v ++ DQ1))%nat = true)
    by (apply Nat.leb_le; rewrite !length_app_s; simpl; lia).
  assert (Hstart : startswith (DQ1 ++ v ++ DQ1) DQ1 = true).
  { unfold DQ1 at 1 3. rewrite append_cons, append_nil.
    now rewrite startswith_cons_eq, startswith_nil. }
  assert (Hnot3 : startswith (DQ1 ++ v ++ DQ1) DQ3 = false).
  { unfold DQ1 at 1, DQ3. rewrite append_cons, append_nil, startswith_cons_eq.
    destruct (not_quoted_start _ _ Hv) as [->|(c & v' & -> & Hc)].
    - reflexivity.
    - rewrite append_cons. now apply startswith_cons_ne. }
  assert (Hne3 : String.eqb (DQ1 ++ v ++ DQ1) DQ3 = false).
  { apply String.eqb_neq. unfold DQ1 at 1, DQ3. rewrite append_cons, append_nil.
    intros E. injection E as E.
    destruct (not_quoted_start _ _ Hv) as [->|(c & v' & -> & Hc)].
    - discriminate.
    - rewrite append_cons in E. injection E as E _. now apply Hc. }
  rewrite Hnot3, Hne3, Hstart, Hend, Hlen. cbn [andb].
  apply (slice_quoted DQ1 v).
Qed.

Lemma trimmed_quoted q v :
  isspace q = false -> trimmed (String q "" ++ v ++ String q "").
Proof.
  intros Hq. split.
  - rewrite append_cons. now apply lstrip_cons.
  - rewrite <- app_assoc_s. now apply rstrip_last.
Qed.

Section EnvLine.
Variable k : string.
Hypothesis name_k : plain_name k.

(** X13.  White space around the line, around the name and around the
    value is dropped and nothing else is: a line [name = value] assigns the
    unquoted value to the name, and the value itself, with whatever it
    holds (a ['#'], an ['=']), when it does not start with a quote. *)
Theorem assignment_line_is_parsed w1 w2 w3 val w4 :
  blank w1 = true -> blank w2 = true -> blank w3 = true -> blank w4 = true ->
  trimmed val ->
  parse_env_line (w1 ++ k ++ w2 ++ String "=" (w3 ++ val ++ w4))
  = Some (k, unquote val)
  /\ (startswith val DQ1 = false -> startswith val SQ1 = false ->
      parse_env_line (w1 ++ k ++ w2 ++ String "=" (w3 ++ val ++ w4))
      = Some (k, val)).
Proof.
  intros H1 H2 H3 H4 Hval.
  pose proof (parse_env_line_padded w1 k w2 w3 val w4 name_k H1 H2 H3 H4 Hval)
    as Hline.
  split; [exact Hline|]. intros Hd Hs. now rewrite Hline, unquote_plain.
Qed.

Lemma parse_env_line_bare val :
  trimmed val -> parse_env_line (k ++ String "=" val) = Some (k, unquote val).
Proof.
  intros Hval.
  pose proof (parse_env_line_padded "" k "" "" val "" name_k
                eq_refl eq_refl eq_refl eq_refl Hval) as Hline.
  now rewrite !append_nil, !append_nil_r in Hline.
Qed.

(** X14.  A value written between single quotes, or between triple double
    quotes, is read back as it is written, white space included; so is a
    value between double quotes that does not itself start with a double
    quote. *)
Theorem quoted_value_is_read_back v :
  parse_env_line (k ++ String "=" (SQ1 ++ v ++ SQ1)) = Some (k, v)
  /\ parse_env_line (k ++ String "=" (DQ3 ++ v ++ DQ3)) = Some (k, v)
  /\ (startswith v DQ1 = false ->
      parse_env_line (k ++ String "=" (DQ1 ++ v ++ DQ1)) = Some (k, v)).
Proof.
  split; [|split].
  - rewrite parse_env_line_bare by (apply trimmed_quoted; reflexivity).
    now rewrite unquote_single.
  - rewrite parse_env_line_bare.
    + now rewrite unquote_triple.
    + split.
      * reflexivity.
      * rewrite <- app_assoc_s. apply rstrip_app; [reflexivity|discriminate].
  - intros Hv.
    rewrite parse_env_line_bare by (apply trimmed_quoted; reflexivity).
    now rewrite unquote_double.
Qed.
End EnvLine.

Lemma plain_name_api_key : plain_name "MERGE_API_KEY".
Proof.
  split; [|split; reflexivity].
  exists "M"%char, "ERGE_API_KEY". repeat split; reflexivity.
Qed.

Lemma assignment_line_is_parsed_witness :
  parse_env_line "  MERGE_API_KEY = k-123 # the key  "
  = Some ("MERGE_API_KEY", "k-123 # the key").
Proof.
  refine (proj2 (assignment_line_is_parsed "MERGE_API_KEY" plain_name_api_key
                   "  " " " " " "k-123 # the key" "  " _ _ _ _ _) _ _);
    try reflexivity.
  split; reflexivity.
Defined.

Lemma quoted_value_is_read_back_witness :
  parse_env_line ("MERGE_API_KEY=" ++ SQ1 ++ " a=b " ++ SQ1)
  = Some ("MERGE_API_KEY", " a=b ")
  /\ parse_env_line ("MERGE_API_KEY=" ++ DQ1 ++ "a # b" ++ DQ1)
     = Some ("MERGE_API_KEY", "a # b").
Proof.
  split.
  - exact (proj1 (quoted_value_is_read_back "MERGE_API_KEY"
                    plain_name_api_key " a=b ")).
  - exact (proj2 (proj2 (quoted_value_is_read_back "MERGE_API_KEY"
                           plain_name_api_key "a # b")) eq_refl).
Defined.
